(** * Ray tutorial notebooks: remote functions, remote classes, JobLib

  The repository consists of three recorded notebook sessions that drive
  the Ray framework:

  - "A Guided Tour of Ray Core: Remote Functions" (ex_remo_func.ipynb),
  - "A Guided Tour of Ray Core: JobLib" (second document of the same file),
  - "A Guided Tour of Ray Core: Remote Classes" (ex_remo_meth.ipynb).

  The code cells are embedded as programs over the calls they make
  ([Notebook.nb]); the Python functions and the class they define are
  embedded as computations over the in-process effects they use
  ([Python.py]).  The framework itself is not part of the repository; its
  submit / resolve contract is modelled in [Ray]. *)

From Stdlib Require Import ZArith List String Ascii Bool Lia Arith.
From Stdlib Require Import DecimalString.
Import ListNotations.
Open Scope string_scope.
Open Scope Z_scope.

Set Implicit Arguments.
Set Warnings "-register-all".

(* ------------------------------------------------------------------ *)
(** ** A monad interface shared by function bodies and notebook cells *)

Class Monad (M : Type -> Type) : Type :=
{ ret : forall A, A -> M A;
  bind : forall A B, M A -> (A -> M B) -> M B }.

Arguments ret {M _ A} _.
Arguments bind {M _ A B} _ _.

Declare Scope monad_scope.
Delimit Scope monad_scope with monad.
Notation "x <- c ;; k" := (bind c (fun x => k))
(at level 61, c at next level, right associativity) : monad_scope.
Notation "' pat <- c ;; k" := (bind c (fun x => let 'pat := x in k))
(at level 61, pat pattern, c at next level, right associativity) : monad_scope.
Notation "c ;;; k" := (bind c (fun _ => k))
(at level 61, right associativity) : monad_scope.
Open Scope monad_scope.

(* ------------------------------------------------------------------ *)
(** ** Python values, exceptions and in-process computations *)

Module Python.

(** Python objects, as far as the notebooks handle them.  Integers are
    unbounded.  The last five constructors are the objects handed out by
    the framework and by the libraries. *)
Inductive value : Type :=
| VNone
| VInt (n : Z)
| VStr (s : string)
| VList (items : list value)
| VDict (items : list (string * value))
| VObjectRef (h : nat)          (* ray.ObjectRef *)
| VRemoteFunction (f : nat)     (* what @ray.remote makes of a def *)
| VActorClass (c : nat)         (* what @ray.remote makes of a class *)
| VActorHandle (a : nat)        (* what Class.remote() returns *)
| VObject (what : string).      (* an object of numpy, scikit-learn, joblib *)

Inductive exn : Type :=
| TypeError (msg : string)
| ValueError (msg : string)
| AttributeError (msg : string)
| RuntimeError (msg : string)
| RayTaskError (cause : exn)    (* a remote task raised [cause] *)
| RayActorError                 (* the actor could not be constructed *)
| RaySystemError (msg : string).

Inductive outcome (A : Type) : Type :=
| Ok (a : A)
| Fail (e : exn).
Arguments Ok {A} a.
Arguments Fail {A} e.

Definition nl : string := String (ascii_of_nat 10) EmptyString.

Definition string_of_Z (n : Z) : string :=
  NilZero.string_of_int (Z.to_int n).

(** [repr] of a value; [ids] gives the hexadecimal id of an object
    reference. *)
Fixpoint repr (ids : nat -> string) (v : value) : string :=
  match v with
  | VNone => "None"
  | VInt n => string_of_Z n
  | VStr s => "'" ++ s ++ "'"
  | VList items =>
      "[" ++
      (fix elems (l : list value) : string :=
         match l with
         | [] => ""
         | x :: r =>
             repr ids x ++ match r with [] => "" | _ => ", " ++ elems r end
         end) items ++ "]"
  | VDict items =>
      "{" ++
      (fix elems (l : list (string * value)) : string :=
         match l with
         | [] => ""
         | (k, x) :: r =>
             "'" ++ k ++ "': " ++ repr ids x ++
             match r with [] => "" | _ => ", " ++ elems r end
         end) items ++ "}"
  | VObjectRef h => "ObjectRef(" ++ ids h ++ ")"
  | VRemoteFunction _ => "<ray.remote_function.RemoteFunction>"
  | VActorClass _ => "<ray.actor.ActorClass>"
  | VActorHandle _ => "<ray.actor.ActorHandle>"
  | VObject what => what
  end.

(** [str]: as [repr], except on strings. *)
Definition str (ids : nat -> string) (v : value) : string :=
  match v with
  | VStr s => s
  | _ => repr ids v
  end.

(** The instance dictionary of an object: attribute name to value. *)
Definition instance : Type := list (string * value).

Fixpoint getattr (self : instance) (name : string) : option value :=
  match self with
  | [] => None
  | (k, v) :: rest => if String.eqb k name then Some v else getattr rest name
  end.

Fixpoint setattr (self : instance) (name : string) (v : value) : instance :=
  match self with
  | [] => [(name, v)]
  | (k, x) :: rest =>
      if String.eqb k name then (k, v) :: rest
      else (k, x) :: setattr rest name v
  end.

(** A Python computation that runs inside one process: it returns or
    raises, may sleep, may draw from the process's random generator, and
    (in a method) reads and writes the attributes of [self]. *)
Inductive py (A : Type) : Type :=
| Return (a : A)
| Raise (e : exn)
| time_sleep (secs : Z) (k : py A)
| random_randint (a b : Z) (k : Z -> py A)
| self_get (name : string) (k : value -> py A)
| self_set (name : string) (v : value) (k : py A).
Arguments Return {A} a.
Arguments Raise {A} e.

Fixpoint py_bind {A B} (c : py A) (f : A -> py B) : py B :=
  match c with
  | Return a => f a
  | Raise e => Raise e
  | time_sleep secs k => time_sleep secs (py_bind k f)
  | random_randint a b k => random_randint a b (fun n => py_bind (k n) f)
  | self_get name k => self_get name (fun v => py_bind (k v) f)
  | self_set name v k => self_set name v (py_bind k f)
  end.

#[export] Instance py_monad : Monad py :=
  {| ret := @Return; bind := @py_bind |}.

(** The state of one operating-system process: the raw stream its random
    generator draws from, how many draws it has made, and for how long
    it has slept. *)
Record process : Type :=
  { entropy : nat -> Z;
    draws : nat;
    slept : Z }.

Definition fresh_process (seed : nat -> Z) : process :=
  {| entropy := seed; draws := 0%nat; slept := 0 |}.

(** [random.randint(a, b)] returns an integer N with a <= N <= b, and
    raises ValueError on an empty range; [time.sleep] raises ValueError
    on a negative length. *)
Fixpoint exec {A} (c : py A) (self : instance) (p : process)
  : outcome A * instance * process :=
  match c with
  | Return a => (Ok a, self, p)
  | Raise e => (Fail e, self, p)
  | time_sleep secs k =>
      if secs <? 0
      then (Fail (ValueError "sleep length must be non-negative"), self, p)
      else exec k self
             {| entropy := entropy p; draws := draws p;
                slept := slept p + secs |}
  | random_randint a b k =>
      if b <? a
      then (Fail (ValueError "empty range for randrange()"), self, p)
      else exec (k (a + entropy p (draws p) mod (b - a + 1))) self
             {| entropy := entropy p; draws := S (draws p);
                slept := slept p |}
  | self_get name k =>
      match getattr self name with
      | Some v => exec (k v) self p
      | None => (Fail (AttributeError name), self, p)
      end
  | self_set name v k => exec k (setattr self name v) p
  end.

(** Python's [+] on integers, the only values the notebooks add; on
    anything else it is taken to raise TypeError, as Python does for the
    values of [takes_no_int] below. *)
Definition add (x y : value) : py value :=
  match x, y with
  | VInt a, VInt b => Return (VInt (a + b))
  | _, _ => Raise (TypeError "unsupported operand type(s) for +")
  end.

(** None, strings, lists and dicts: Python raises TypeError when an integer
    is added to one of these. *)
Definition takes_no_int (x : value) : bool :=
  match x with
  | VNone | VStr _ | VList _ | VDict _ => true
  | _ => false
  end.

(** A [def]: its name and its body as a function of the arguments. *)
Record function : Type :=
  { name : string;
    call : list value -> py value }.

(** A [class]: its name and its methods, [__init__] among them. *)
Record class : Type :=
  { cls_name : string;
    methods : list function }.

Fixpoint find_method (ms : list function) (m : string) : option function :=
  match ms with
  | [] => None
  | f :: rest => if String.eqb (name f) m then Some f else find_method rest m
  end.

(** [range(n)] *)
Definition range (n : nat) : list Z := map Z.of_nat (seq 0 n).

(** [logging.ERROR] *)
Definition logging_ERROR : Z := 40.

End Python.
Import Python.

(* ------------------------------------------------------------------ *)
(** ** Notebook cells as programs over the calls they make *)

Module Notebook.

(** The calls that occur in the code cells. *)
Inductive op : Type :=
(* the framework *)
| ray_init (ignore_reinit_error : bool) (logging_level : Z)
| ray_get_dashboard_url
| ray_remote_function (f : function)     (* @ray.remote above a def *)
| ray_remote_class (c : class)           (* @ray.remote above a class *)
| remote (callee : value) (args : list value)
                                         (* callee.remote(args) *)
| method_remote (actor : value) (meth : string) (args : list value)
                                         (* actor.meth.remote(args) *)
| ray_get (object_refs : value)
| ray_shutdown
| register_ray                           (* ray.util.joblib.register_ray *)
(* Python in the notebook's own process *)
| call_local (f : function) (args : list value)
| print (pieces : list value)            (* print(f"..."): the pieces of the
                                            f-string, in order *)
| ic (source : string) (v : value)       (* icecream: echo and return v *)
| display (v : value)                    (* a cell's last expression *)
(* numpy, scikit-learn, joblib *)
| library (fn : string) (args : list value) (kwargs : list (string * value))
| attribute (obj : value) (attr : string)
| method (obj : value) (meth : string) (args : list value)
| enter (cm : value)                     (* cm.__enter__() *)
| exit (cm : value).                     (* cm.__exit__(...) *)

(** A cell (or a sequence of cells): a tree of calls.  [With] is the
    [with] statement; [Try] is [try ... except], which no cell uses. *)
Inductive nb (A : Type) : Type :=
| Done (a : A)
| Call (o : op) (k : value -> nb A)
| With (cm : value) (body : nb value) (k : value -> nb A)
| Try (body : nb value) (handler : exn -> nb value) (k : value -> nb A).
Arguments Done {A} a.

Fixpoint nb_bind {A B : Type} (p : nb A) (f : A -> nb B) : nb B :=
  match p with
  | Done a => f a
  | Call o k => Call o (fun v => nb_bind (k v) f)
  | With cm body k => With cm body (fun v => nb_bind (k v) f)
  | Try body handler k => Try body handler (fun v => nb_bind (k v) f)
  end.

#[export] Instance nb_monad : Monad nb :=
  {| ret := @Done; bind := @nb_bind |}.

Definition do (o : op) : nb value := Call o (fun v => Done v).

(** [for x in xs: body], threading the variables the body assigns. *)
Fixpoint for_in {X V} (xs : list X) (body : X -> V -> nb V) (vars : V)
  : nb V :=
  match xs with
  | [] => Done vars
  | x :: rest => nb_bind (body x vars) (for_in rest body)
  end.

End Notebook.
Import Notebook.

(* ------------------------------------------------------------------ *)
(** ** ex_remo_func.ipynb, first document: Remote Functions

    One definition per code cell, named by the cell's execution count.  A
    cell is a function of the notebook variables it reads and returns the
    ones it assigns.  [import] lines bind names and make no call. *)

Module RemoteFunctions.

(** In [1]: ray.init(ignore_reinit_error=True, logging_level=logging.ERROR)
            print(f"Dashboard URL: http://{ray.get_dashboard_url()}") *)
Definition cell_1 : nb unit :=
  _ <- do (ray_init true logging_ERROR);;
  url <- do ray_get_dashboard_url;;
  out <- do (print [VStr "Dashboard URL: http://"; url]);;
  _ <- do (display out);;
  Done tt.

(** In [2]: import time; import random *)
Definition cell_2 : nb unit := Done tt.

(** In [3]: def my_function (): return 42 *)
Definition my_function : function :=
  {| name := "my_function";
     call := fun args =>
       match args with
       | [] => Return (VInt 42)
       | _ => Raise (TypeError "my_function() takes 0 positional arguments")
       end |}.

Definition cell_3 : nb function := Done my_function.

(** In [4]: my_function() *)
Definition cell_4 (my_function : function) : nb unit :=
  out <- do (call_local my_function []);;
  _ <- do (display out);;
  Done tt.

(** In [5]: @ray.remote
            def my_function(): return 42 *)
Definition cell_5 : nb value := do (ray_remote_function my_function).

(** In [6]: obj_ref = my_function.remote()
            obj_ref *)
Definition cell_6 (my_function : value) : nb value :=
  obj_ref <- do (remote my_function []);;
  _ <- do (display obj_ref);;
  Done obj_ref.

(** In [7]: ray.get(obj_ref) *)
Definition cell_7 (obj_ref : value) : nb unit :=
  out <- do (ray_get obj_ref);;
  _ <- do (display out);;
  Done tt.

(** In [8]: @ray.remote
            def slow_function():
              time.sleep(2)
              return random.randint(0, 9) *)
Definition slow_function : function :=
  {| name := "slow_function";
     call := fun args =>
       match args with
       | [] => time_sleep 2 (random_randint 0 9 (fun n => Return (VInt n)))
       | _ => Raise (TypeError "slow_function() takes 0 positional arguments")
       end |}.

Definition cell_8 : nb value := do (ray_remote_function slow_function).

(** In [9]: futures_list = []
            for i in range(4):
                future = slow_function.remote()
                futures_list.append(future)
                ic(i) *)
Definition cell_9 (slow_function : value) : nb (list value) :=
  for_in (range 4)
    (fun i futures_list =>
       future <- do (remote slow_function []);;
       let futures_list := (futures_list ++ [future])%list in
       _ <- do (ic "i" (VInt i));;
       Done futures_list)
    [].

(** In [10]: for future in futures_list:
                 ic(ray.get(future)) *)
Definition cell_10 (futures_list : list value) : nb unit :=
  for_in futures_list
    (fun future _ =>
       got <- do (ray_get future);;
       _ <- do (ic "ray.get(future)" got);;
       Done tt)
    tt.

(** In [11]: ray.shutdown() *)
Definition cell_11 : nb unit :=
  out <- do ray_shutdown;;
  _ <- do (display out);;
  Done tt.

(** The session: the cells in the order of their execution counts, up to
    the cell that fills futures_list, and in full. *)
Definition through_cell_9 : nb (list value) :=
  cell_1;;;
  cell_2;;;
  plain_my_function <- cell_3;;
  cell_4 plain_my_function;;;
  my_function <- cell_5;;
  obj_ref <- cell_6 my_function;;
  cell_7 obj_ref;;;
  slow_function <- cell_8;;
  cell_9 slow_function.

Definition notebook : nb unit :=
  futures_list <- through_cell_9;;
  cell_10 futures_list;;;
  cell_11.

End RemoteFunctions.

(* ------------------------------------------------------------------ *)
(** ** ex_remo_func.ipynb, second document: JobLib *)

Module JobLib.

(** In [1]: as in the other notebooks. *)
Definition cell_1 : nb unit :=
  _ <- do (ray_init true logging_ERROR);;
  url <- do ray_get_dashboard_url;;
  out <- do (print [VStr "Dashboard URL: http://"; url]);;
  _ <- do (display out);;
  Done tt.

(** In [2]: imports of register_ray, load_digits, RandomizedSearchCV, SVC,
            numpy and joblib. *)
Definition cell_2 : nb unit := Done tt.

(** In [3]: register_ray() *)
Definition cell_3 : nb unit :=
  out <- do register_ray;;
  _ <- do (display out);;
  Done tt.

(** In [4]: digits = load_digits() *)
Definition cell_4 : nb value := do (library "load_digits" [] []).

(** In [5]: param_space = { "C": np.logspace(-6, 6, 30),
                            "gamma": np.logspace(-8, 8, 30),
                            "tol": np.logspace(-4, -1, 30),
                            "class_weight": [None, "balanced"] }
            model = SVC(kernel="rbf") *)
Definition cell_5 : nb (value * value) :=
  c <- do (library "np.logspace" [VInt (-6); VInt 6; VInt 30] []);;
  gamma <- do (library "np.logspace" [VInt (-8); VInt 8; VInt 30] []);;
  tol <- do (library "np.logspace" [VInt (-4); VInt (-1); VInt 30] []);;
  let param_space :=
    VDict [("C", c); ("gamma", gamma); ("tol", tol);
           ("class_weight", VList [VNone; VStr "balanced"])] in
  model <- do (library "SVC" [] [("kernel", VStr "rbf")]);;
  Done (param_space, model).

(** In [6]: clf = RandomizedSearchCV(model, param_space, cv=5, n_iter=10,
                                     verbose=10)
            clf *)
Definition cell_6 (model param_space : value) : nb value :=
  clf <- do (library "RandomizedSearchCV" [model; param_space]
               [("cv", VInt 5); ("n_iter", VInt 10); ("verbose", VInt 10)]);;
  _ <- do (display clf);;
  Done clf.

(** In [7]: with joblib.parallel_backend("ray"):
                search = clf.fit(digits.data, digits.target) *)
Definition cell_7 (clf digits : value) : nb value :=
  cm <- do (library "joblib.parallel_backend" [VStr "ray"] []);;
  With cm
    (data <- do (attribute digits "data");;
     target <- do (attribute digits "target");;
     do (method clf "fit" [data; target]))
    (fun search => Done search).

(** In [8]: search.best_params_ *)
Definition cell_8 (search : value) : nb unit :=
  out <- do (attribute search "best_params_");;
  _ <- do (display out);;
  Done tt.

(** In [9]: ray.shutdown() *)
Definition cell_9 : nb unit :=
  out <- do ray_shutdown;;
  _ <- do (display out);;
  Done tt.

Definition notebook : nb unit :=
  cell_1;;;
  cell_2;;;
  cell_3;;;
  digits <- cell_4;;
  '(param_space, model) <- cell_5;;
  clf <- cell_6 model param_space;;
  search <- cell_7 clf digits;;
  cell_8 search;;;
  cell_9.

End JobLib.

(* ------------------------------------------------------------------ *)
(** ** ex_remo_meth.ipynb: Remote Classes *)

Module RemoteClasses.

(** In [1]: as in the other notebooks. *)
Definition cell_1 : nb unit :=
  _ <- do (ray_init true logging_ERROR);;
  url <- do ray_get_dashboard_url;;
  out <- do (print [VStr "Dashboard URL: http://"; url]);;
  _ <- do (display out);;
  Done tt.

(** In [2]: @ray.remote
            class Counter (object):
                def __init__ (self):
                    self.value = 0
                def increment (self):
                    self.value += 1
                    return self.value *)
Definition __init__ : function :=
  {| name := "__init__";
     call := fun args =>
       match args with
       | [] => self_set "value" (VInt 0) (Return VNone)
       | _ => Raise (TypeError "__init__() takes 1 positional argument")
       end |}.

Definition increment : function :=
  {| name := "increment";
     call := fun args =>
       match args with
       | [] =>
           old <- self_get "value" (@Return value);;
           new <- add old (VInt 1);;
           self_set "value" new (self_get "value" (@Return value))
       | _ => Raise (TypeError "increment() takes 1 positional argument")
       end |}.

Definition Counter : class :=
  {| cls_name := "Counter";
     methods := [__init__; increment] |}.

Definition cell_2 : nb value := do (ray_remote_class Counter).

(** In [3]: counter = Counter.remote() *)
Definition cell_3 (Counter : value) : nb value := do (remote Counter []).

(** In [4]: obj_ref = counter.increment.remote()
            ray.get(obj_ref) *)
Definition cell_4 (counter : value) : nb value :=
  obj_ref <- do (method_remote counter "increment" []);;
  out <- do (ray_get obj_ref);;
  _ <- do (display out);;
  Done obj_ref.

(** In [5]: ray.shutdown() *)
Definition cell_5 : nb unit :=
  out <- do ray_shutdown;;
  _ <- do (display out);;
  Done tt.

Definition notebook : nb unit :=
  cell_1;;;
  Counter <- cell_2;;
  counter <- cell_3 Counter;;
  _ <- cell_4 counter;;
  cell_5.

(** Cells [3] and [4] with [k] further calls of increment in between:
    counter = Counter.remote(); k times counter.increment.remote(); then
    cell [4], whose call is the (k+1)-th. *)
Definition after_increments (k : nat) (Counter : value) : nb value :=
  counter <- cell_3 Counter;;
  for_in (seq 0 k)
    (fun _ _ => _ <- do (method_remote counter "increment" []);; Done tt)
    tt;;;
  cell_4 counter.

End RemoteClasses.

(* ------------------------------------------------------------------ *)
(** ** Running a notebook against an implementation of the calls *)

Module Session.

(** One call and what it returned or raised. *)
Definition event : Type := (op * outcome value)%type.

Section Run.

Variable S : Type.
(** What each call does to the state of the world. *)
Variable step : op -> S -> outcome value * S.

(** Cells run in order and calls run in program order; a call that raises
    ends the run, unless a [try] encloses it.  The context manager of the
    one [with] statement, joblib.parallel_backend, returns None from
    __exit__, so an exception of the body is raised again after __exit__
    has run. *)
Fixpoint run {A : Type} (p : nb A) (s : S) : outcome A * S * list event :=
  match p with
  | Done a => (Ok a, s, [])
  | Call o k =>
      let '(r, s1) := step o s in
      match r with
      | Ok v => let '(r', s2, t) := run (k v) s1 in (r', s2, (o, r) :: t)
      | Fail e => (Fail e, s1, [(o, r)])
      end
  | With cm body k =>
      let '(r, s1) := step (enter cm) s in
      match r with
      | Fail e => (Fail e, s1, [(enter cm, r)])
      | Ok _ =>
          let '(rb, s2, tb) := run body s1 in
          let '(rx, s3) := step (exit cm) s2 in
          let t := ((enter cm, r) :: tb ++ [(exit cm, rx)])%list in
          match rx, rb with
          | Fail e, _ => (Fail e, s3, t)
          | Ok _, Fail e => (Fail e, s3, t)
          | Ok _, Ok v =>
              let '(r', s4, t') := run (k v) s3 in (r', s4, (t ++ t')%list)
          end
      end
  | Try body handler k =>
      let '(rb, s1, tb) := run body s in
      match rb with
      | Ok v => let '(r', s2, t) := run (k v) s1 in (r', s2, (tb ++ t)%list)
      | Fail e =>
          let '(rh, s2, th) := run (handler e) s1 in
          match rh with
          | Ok v =>
              let '(r', s3, t) := run (k v) s2 in
              (r', s3, (tb ++ th ++ t)%list)
          | Fail e' => (Fail e', s2, (tb ++ th)%list)
          end
      end
  end.

End Run.

(** The exception of the last call that raised, if any call did. *)
Fixpoint last_failure (t : list event) : option exn :=
  match t with
  | [] => None
  | (_, r) :: rest =>
      match last_failure rest with
      | Some e => Some e
      | None => match r with Fail e => Some e | Ok _ => None end
      end
  end.

(** *** Classification of the calls *)

(** Calls into the framework (the ray package). *)
Definition into_ray (o : op) : bool :=
  match o with
  | ray_init _ _ | ray_get_dashboard_url | ray_remote_function _
  | ray_remote_class _ | remote _ _ | method_remote _ _ _ | ray_get _
  | ray_shutdown | register_ray => true
  | _ => false
  end.

(** submit(callable, args): a [.remote(...)] call. *)
Definition is_submit (o : op) : bool :=
  match o with
  | remote _ _ | method_remote _ _ _ => true
  | _ => false
  end.

(** resolve(handle or handles): [ray.get]. *)
Definition is_resolve (o : op) : bool :=
  match o with
  | ray_get _ => true
  | _ => false
  end.

(** Opening, inspecting and closing the session. *)
Definition is_session_call (o : op) : bool :=
  match o with
  | ray_init _ _ | ray_get_dashboard_url | ray_shutdown => true
  | _ => false
  end.

(** Marking a def or a class as remote, and registering the joblib
    backend. *)
Definition is_registration (o : op) : bool :=
  match o with
  | ray_remote_function _ | ray_remote_class _ | register_ray => true
  | _ => false
  end.

(** ray.init is called with ignore_reinit_error=True. *)
Definition ignores_reinit (o : op) : bool :=
  match o with
  | ray_init ignore_reinit_error _ => ignore_reinit_error
  | _ => true
  end.

(** What a resolution handed over is an integer from 0 to 9, if it handed
    over a value at all. *)
Definition from_0_to_9 (r : outcome value) : Prop :=
  match r with
  | Ok (VInt n) => 0 <= n <= 9
  | Ok _ => False
  | Fail _ => True
  end.

(** A call is accounted for by the two consumed operations alone: it does
    not go into the framework, or it is a submit, or it is a resolve. *)
Definition submit_or_resolve (o : op) : bool :=
  negb (into_ray o) || is_submit o || is_resolve o.

(** What the submissions of a run handed back, oldest first. *)
Fixpoint submissions (t : list event) : list value :=
  match t with
  | [] => []
  | (o, Ok v) :: rest =>
      if is_submit o then v :: submissions rest else submissions rest
  | (_, Fail _) :: rest => submissions rest
  end.

(** What a run passed to ray.get, oldest first. *)
Fixpoint resolutions (t : list event) : list value :=
  match t with
  | [] => []
  | (ray_get refs, _) :: rest => refs :: resolutions rest
  | _ :: rest => resolutions rest
  end.

(** What ray.get gave back for [refs] in a run, if it was called on it. *)
Fixpoint resolved_to (refs : value -> bool) (t : list event)
  : list (outcome value) :=
  match t with
  | [] => []
  | (ray_get r, got) :: rest =>
      if refs r then got :: resolved_to refs rest else resolved_to refs rest
  | _ :: rest => resolved_to refs rest
  end.

(** A property of every call on every path through a program. *)
Fixpoint every_call {A : Type} (P : op -> Prop) (p : nb A) : Prop :=
  match p with
  | Done _ => True
  | Call o k => P o /\ forall v, every_call P (k v)
  | With cm body k =>
      P (enter cm) /\ every_call P body /\ P (exit cm) /\
      forall v, every_call P (k v)
  | Try body handler k =>
      every_call P body /\ (forall e, every_call P (handler e)) /\
      forall v, every_call P (k v)
  end.

(** Some path through the program makes a call with property [P]. *)
Fixpoint some_call {A : Type} (P : op -> Prop) (p : nb A) : Prop :=
  match p with
  | Done _ => False
  | Call o k => P o \/ exists v, some_call P (k v)
  | With cm body k =>
      P (enter cm) \/ some_call P body \/ P (exit cm) \/
      exists v, some_call P (k v)
  | Try body handler k =>
      some_call P body \/ (exists e, some_call P (handler e)) \/
      exists v, some_call P (k v)
  end.

(** No [try ... except] anywhere in the program. *)
Fixpoint handler_free {A : Type} (p : nb A) : Prop :=
  match p with
  | Done _ => True
  | Call _ k => forall v, handler_free (k v)
  | With _ body k => handler_free body /\ forall v, handler_free (k v)
  | Try _ _ _ => False
  end.

(** Neither [try] nor [with]: one call after the other. *)
Fixpoint straight {A : Type} (p : nb A) : Prop :=
  match p with
  | Done _ => True
  | Call _ k => forall v, straight (k v)
  | With _ _ _ => False
  | Try _ _ _ => False
  end.

(** *** Lifecycle *)













(** *** The calls of a session, one by one *)

(** The calls into the framework by what is called: the def or class below
    the decorator by its name, and without the values passed. *)
Inductive ray_call : Type :=
| Init (ignore_reinit_error : bool)   (* ray.init(...) *)
| DashboardUrl                        (* ray.get_dashboard_url() *)
| MarkFunction (def_name : string)    (* @ray.remote above def def_name *)
| MarkClass (class_name : string)     (* @ray.remote above class class_name *)
| Submit                              (* callee.remote(...) *)
| SubmitMethod (meth : string)        (* actor.meth.remote(...) *)
| Resolve                             (* ray.get(...) *)
| Shutdown                            (* ray.shutdown() *)
| RegisterRay.                        (* register_ray() *)

Definition ray_call_of (o : op) : option ray_call :=
  match o with
  | ray_init ignore_reinit_error _ => Some (Init ignore_reinit_error)
  | ray_get_dashboard_url => Some DashboardUrl
  | ray_remote_function f => Some (MarkFunction (name f))
  | ray_remote_class c => Some (MarkClass (cls_name c))
  | remote _ _ => Some Submit
  | method_remote _ meth _ => Some (SubmitMethod meth)
  | ray_get _ => Some Resolve
  | ray_shutdown => Some Shutdown
  | register_ray => Some RegisterRay
  | _ => None
  end.

(** [seen] with what [tag] makes of the call [o], if anything. *)
Definition noted {B : Type} (tag : op -> option B) (o : op) (seen : list B)
  : list B :=
  match tag o with
  | Some b => seen ++ [b]
  | None => seen
  end.

(** What [tag] makes of the calls of a program, call after call: on every
    path the list collected, from [seen] on, satisfies [rest]. *)
Fixpoint collects {A B : Type} (tag : op -> option B) (p : nb A)
  (seen : list B) (rest : list B -> Prop) : Prop :=
  match p with
  | Done _ => rest seen
  | Call o k => forall v, collects tag (k v) (noted tag o seen) rest
  | With cm body k =>
      collects tag body (noted tag (enter cm) seen)
        (fun seen' =>
           forall v, collects tag (k v) (noted tag (exit cm) seen') rest)
  | Try _ _ _ => False
  end.

End Session.
Import Session.

(* ------------------------------------------------------------------ *)
(** ** The framework and the libraries, as the notebooks consume them *)

Module Ray.

(** What the notebooks cannot control: the random streams of the
    processes, failures of the cluster, the ids it gives to objects and
    the address of its dashboard. *)
Record world : Type :=
  { task_entropy : nat -> nat -> Z;    (* of the worker that runs task h *)
    actor_entropy : nat -> nat -> Z;   (* of the process of actor a *)
    driver_entropy : nat -> Z;         (* of the notebook's own process *)
    fault : nat -> option exn;         (* task h is lost with this error *)
    object_id : nat -> string;
    dashboard_url : string }.

(** Work handed to the cluster. *)
Inductive task : Type :=
| function_task (f : function) (args : list value)
| actor_task (a : nat) (meth : string) (args : list value).

(** The object behind an object ref: the task that produces it and, once
    that task has run, what it returned or raised. *)
Record object : Type :=
  { producer : task;
    result : option (outcome value) }.

(** An actor: its class, the constructor arguments, its instance once the
    constructor has run, its process, and the handles of the method calls
    it has not yet run, oldest first. *)
Record actor : Type :=
  { a_class : class;
    a_args : list value;
    a_self : option (outcome instance);
    a_process : process;
    mailbox : list nat }.

Record cluster : Type :=
  { objects : list object;     (* object ref h is position h *)
    actors : list actor }.     (* actor handle a is position a *)

Inductive output : Type :=
| stdout (text : string)
| stderr (text : string)
| execute_result (text : string).

Record state : Type :=
  { session : option cluster;           (* None: not connected *)
    remote_functions : list function;   (* RemoteFunction f is position f *)
    actor_classes : list class;
    joblib_backends : list string;
    driver : process;
    outputs : list output }.

Definition initial (w : world) : state :=
  {| session := None; remote_functions := []; actor_classes := [];
     joblib_backends := []; driver := fresh_process (driver_entropy w);
     outputs := [] |}.

Definition empty_cluster : cluster := {| objects := []; actors := [] |}.

Definition with_session (st : state) (c : option cluster) : state :=
  {| session := c; remote_functions := remote_functions st;
     actor_classes := actor_classes st;
     joblib_backends := joblib_backends st; driver := driver st;
     outputs := outputs st |}.

Definition with_output (st : state) (o : list output) : state :=
  {| session := session st; remote_functions := remote_functions st;
     actor_classes := actor_classes st;
     joblib_backends := joblib_backends st; driver := driver st;
     outputs := (outputs st ++ o)%list |}.

Fixpoint replace {X} (n : nat) (x : X) (l : list X) : list X :=
  match l, n with
  | [], _ => []
  | _ :: rest, O => x :: rest
  | y :: rest, S n' => y :: replace n' x rest
  end.

Definition set_result (h : nat) (r : outcome value) (objs : list object)
  : list object :=
  match nth_error objs h with
  | Some ob => replace h {| producer := producer ob; result := Some r |} objs
  | None => objs
  end.

(** A method call that has not run yet, and an actor with another
    mailbox. *)
Definition pending_call (a : nat) (meth : string) (args : list value)
  : object :=
  {| producer := actor_task a meth args; result := None |}.

Definition with_mailbox (act : actor) (queue : list nat) : actor :=
  {| a_class := a_class act; a_args := a_args act; a_self := a_self act;
     a_process := a_process act; mailbox := queue |}.

(** Modelled from the spec: submit(callable, args) -> handle "enqueues work
    for out-of-process execution; returns immediately".  The framework's
    code is not part of the repository.  The task is appended to the object
    table without being run; its position is the new handle.  A method
    call also joins the mailbox of its actor. *)
Definition submit (t : task) (cl : cluster) : nat * cluster :=
  let h := List.length (objects cl) in
  let objs := (objects cl ++ [{| producer := t; result := None |}])%list in
  match t with
  | function_task _ _ => (h, {| objects := objs; actors := actors cl |})
  | actor_task a _ _ =>
      match nth_error (actors cl) a with
      | Some act =>
          (h, {| objects := objs;
                 actors :=
                   replace a
                     {| a_class := a_class act; a_args := a_args act;
                        a_self := a_self act; a_process := a_process act;
                        mailbox := (mailbox act ++ [h])%list |}
                     (actors cl) |})
      | None => (h, {| objects := objs; actors := actors cl |})
      end
  end.

(** [k] submissions of the same task, one after the other. *)
Fixpoint submit_n (t : task) (k : nat) (cl : cluster) : cluster :=
  match k with
  | O => cl
  | Datatypes.S k' => submit_n t k' (snd (submit t cl))
  end.

(** The constructor of an actor runs in the actor's process. *)
Definition construct (c : class) (args : list value) (p : process)
  : outcome instance * process :=
  match find_method (methods c) "__init__" with
  | None => (Ok [], p)
  | Some f =>
      let '(r, self, p') := exec (call f args) [] p in
      match r with
      | Ok _ => (Ok self, p')
      | Fail e => (Fail e, p')
      end
  end.

Definition run_method (c : class) (meth : string) (args : list value)
  (self : outcome instance) (p : process)
  : outcome value * outcome instance * process :=
  match self with
  | Fail _ => (Fail RayActorError, self, p)
  | Ok inst =>
      match find_method (methods c) meth with
      | None => (Fail (AttributeError meth), self, p)
      | Some f =>
          let '(r, inst', p') := exec (call f args) inst p in
          (r, Ok inst', p')
      end
  end.

(** An actor runs the calls in its mailbox one at a time, oldest first,
    each on the instance the previous one left; [serve] runs them up to
    and including call [h]. *)
Fixpoint serve (c : class) (queue : list nat) (h : nat)
  (self : outcome instance) (p : process) (objs : list object)
  : outcome instance * process * list nat * list object :=
  match queue with
  | [] => (self, p, [], objs)
  | h' :: rest =>
      match option_map producer (nth_error objs h') with
      | Some (actor_task _ meth args) =>
          let '(r, self', p') := run_method c meth args self p in
          let objs' := set_result h' r objs in
          if Nat.eqb h' h then (self', p', rest, objs')
          else serve c rest h self' p' objs'
      | _ => serve c rest h self p objs
      end
  end.

(** The cluster runs the task behind handle [h], if it has not run yet.  A
    function task runs in a worker process of its own. *)
Definition complete (w : world) (h : nat) (cl : cluster) : cluster :=
  match nth_error (objects cl) h with
  | None => cl
  | Some ob =>
      match result ob, producer ob with
      | Some _, _ => cl
      | None, function_task f args =>
          let '(r, _, _) :=
            exec (call f args) [] (fresh_process (task_entropy w h)) in
          {| objects := set_result h r (objects cl); actors := actors cl |}
      | None, actor_task a _ _ =>
          match nth_error (actors cl) a with
          | None =>
              {| objects := set_result h (Fail RayActorError) (objects cl);
                 actors := actors cl |}
          | Some act =>
              let '(self0, p0) :=
                match a_self act with
                | Some self => (self, a_process act)
                | None => construct (a_class act) (a_args act) (a_process act)
                end in
              let '(self', p', queue', objs') :=
                serve (a_class act) (mailbox act) h self0 p0 (objects cl) in
              {| objects := objs';
                 actors :=
                   replace a
                     {| a_class := a_class act; a_args := a_args act;
                        a_self := Some self'; a_process := p';
                        mailbox := queue' |}
                     (actors cl) |}
          end
      end
  end.

(** What the caller of ray.get receives for a completed object: the value,
    or the failure of the task, or the failure of the cluster. *)
Definition deliver (w : world) (h : nat) (cl : cluster) : outcome value :=
  match fault w h with
  | Some e => Fail e
  | None =>
      match option_map result (nth_error (objects cl) h) with
      | Some (Some (Ok v)) => Ok v
      | Some (Some (Fail e)) => Fail (RayTaskError e)
      | _ => Fail (RaySystemError "object lost")
      end
  end.

(** Modelled from the spec: resolve(handle | collection_of_handles) ->
    value | collection_of_values "blocks the calling thread until the
    referenced computation(s) complete; returns the produced value(s) or
    propagates the remote failure to the caller".  The framework's code is
    not part of the repository.  When [resolve] returns the task has run. *)
Definition resolve (w : world) (h : nat) (cl : cluster)
  : outcome value * cluster :=
  match nth_error (objects cl) h with
  | None => (Fail (ValueError "unknown ObjectRef"), cl)
  | Some _ => let cl' := complete w h cl in (deliver w h cl', cl')
  end.

Fixpoint resolve_all (w : world) (refs : list value) (cl : cluster)
  : outcome (list value) * cluster :=
  match refs with
  | [] => (Ok [], cl)
  | VObjectRef h :: rest =>
      match resolve w h cl with
      | (Ok v, cl') =>
          match resolve_all w rest cl' with
          | (Ok vs, cl'') => (Ok (v :: vs), cl'')
          | (Fail e, cl'') => (Fail e, cl'')
          end
      | (Fail e, cl') => (Fail e, cl')
      end
  | _ :: _ => (Fail (TypeError "not an ObjectRef"), cl)
  end.

Definition not_started : exn :=
  RaySystemError "Ray has not been started yet.".

Definition concat_str (ids : nat -> string) (pieces : list value) : string :=
  fold_right (fun v s => str ids v ++ s) "" pieces.

(** Modelled from the spec: the calls of the notebooks into the framework
    ("session bootstrap", "task/actor definition", "invocation",
    "resolution", "teardown") and into the libraries.  None of that code is
    part of the repository.  ray.init with ignore_reinit_error=True on a
    connected session leaves the session as it is; numpy, scikit-learn and
    joblib objects are opaque. *)
Definition step (w : world) (o : op) (st : state) : outcome value * state :=
  match o with
  | ray_init ignore_reinit_error _ =>
      match session st with
      | None => (Ok VNone, with_session st (Some empty_cluster))
      | Some _ =>
          if ignore_reinit_error then (Ok VNone, st)
          else (Fail (RuntimeError
                        "Maybe you called ray.init twice by accident?"), st)
      end
  | ray_get_dashboard_url =>
      match session st with
      | None => (Fail not_started, st)
      | Some _ => (Ok (VStr (dashboard_url w)), st)
      end
  | ray_remote_function f =>
      (Ok (VRemoteFunction (List.length (remote_functions st))),
       {| session := session st;
          remote_functions := (remote_functions st ++ [f])%list;
          actor_classes := actor_classes st;
          joblib_backends := joblib_backends st; driver := driver st;
          outputs := outputs st |})
  | ray_remote_class c =>
      (Ok (VActorClass (List.length (actor_classes st))),
       {| session := session st; remote_functions := remote_functions st;
          actor_classes := (actor_classes st ++ [c])%list;
          joblib_backends := joblib_backends st; driver := driver st;
          outputs := outputs st |})
  | remote callee args =>
      match session st, callee with
      | None, _ => (Fail not_started, st)
      | Some cl, VRemoteFunction f =>
          match nth_error (remote_functions st) f with
          | Some fn =>
              let '(h, cl') := submit (function_task fn args) cl in
              (Ok (VObjectRef h), with_session st (Some cl'))
          | None => (Fail (TypeError "not a remote function"), st)
          end
      | Some cl, VActorClass c =>
          match nth_error (actor_classes st) c with
          | Some cls =>
              let a := List.length (actors cl) in
              (Ok (VActorHandle a),
               with_session st
                 (Some {| objects := objects cl;
                          actors :=
                            (actors cl ++
                             [{| a_class := cls; a_args := args;
                                 a_self := None;
                                 a_process :=
                                   fresh_process (actor_entropy w a);
                                 mailbox := [] |}])%list |}))
          | None => (Fail (TypeError "not an actor class"), st)
          end
      | Some _, _ => (Fail (AttributeError "remote"), st)
      end
  | method_remote actor meth args =>
      match session st, actor with
      | None, _ => (Fail not_started, st)
      | Some cl, VActorHandle a =>
          match nth_error (actors cl) a with
          | Some _ =>
              let '(h, cl') := submit (actor_task a meth args) cl in
              (Ok (VObjectRef h), with_session st (Some cl'))
          | None => (Fail RayActorError, st)
          end
      | Some _, _ => (Fail (AttributeError meth), st)
      end
  | ray_get refs =>
      match session st, refs with
      | None, _ => (Fail not_started, st)
      | Some cl, VObjectRef h =>
          let '(r, cl') := resolve w h cl in (r, with_session st (Some cl'))
      | Some cl, VList l =>
          let '(r, cl') := resolve_all w l cl in
          (match r with Ok vs => Ok (VList vs) | Fail e => Fail e end,
           with_session st (Some cl'))
      | Some _, _ =>
          (Fail (ValueError "object_refs must be an ObjectRef or a list"), st)
      end
  | ray_shutdown => (Ok VNone, with_session st None)
  | register_ray =>
      (Ok VNone,
       {| session := session st; remote_functions := remote_functions st;
          actor_classes := actor_classes st;
          joblib_backends := "ray" :: joblib_backends st;
          driver := driver st; outputs := outputs st |})
  | call_local f args =>
      let '(r, _, p) := exec (call f args) [] (driver st) in
      (r, {| session := session st; remote_functions := remote_functions st;
             actor_classes := actor_classes st;
             joblib_backends := joblib_backends st; driver := p;
             outputs := outputs st |})
  | print pieces =>
      (Ok VNone,
       with_output st [stdout (concat_str (object_id w) pieces ++ nl)])
  | ic source v =>
      (Ok v,
       with_output st
         [stderr ("ic| " ++ source ++ ": " ++ repr (object_id w) v ++ nl)])
  | display v =>
      match v with
      | VNone => (Ok VNone, st)
      | _ => (Ok VNone, with_output st [execute_result (repr (object_id w) v)])
      end
  | library fn args _ =>
      if String.eqb fn "joblib.parallel_backend" then
        match args with
        | [VStr backend] =>
            if existsb (String.eqb backend) (joblib_backends st)
            then (Ok (VObject fn), st)
            else (Fail (ValueError "Invalid backend"), st)
        | _ => (Fail (TypeError "parallel_backend(backend)"), st)
        end
      else (Ok (VObject fn), st)
  | attribute _ attr => (Ok (VObject attr), st)
  | method _ meth _ => (Ok (VObject meth), st)
  | enter cm => (Ok cm, st)
  | exit _ => (Ok VNone, st)
  end.

(** A whole session, from a fresh kernel. *)
Definition session_of (w : world) (notebook : nb unit)
  : outcome unit * state * list event :=
  run (step w) notebook (initial w).

(** *** The recorded sessions *)

(** The world of the recorded runs: no failure, the dashboard address and
    the object id that the outputs show, and random draws that give the
    recorded numbers. *)
Definition recorded_world : world :=
  {| task_entropy := fun h _ =>
       match h with
       | 1%nat => 1 | 2%nat => 4 | 3%nat => 0 | 4%nat => 1 | _ => 0
       end;
     actor_entropy := fun _ _ => 0;
     driver_entropy := fun _ => 0;
     fault := fun _ => None;
     object_id := fun _ =>
       "a67dc375e60ddd1affffffffffffffffffffffff0100000001000000";
     dashboard_url := "127.0.0.1:8265" |}.

(** The outputs stored in ex_remo_func.ipynb, first document, cell after
    cell (the pieces of one line of a stream are joined). *)
Definition recorded_remote_functions : list output :=
  [ stdout ("Dashboard URL: http://127.0.0.1:8265" ++ nl);      (* [1] *)
    execute_result "42";                                         (* [4] *)
    execute_result
      "ObjectRef(a67dc375e60ddd1affffffffffffffffffffffff0100000001000000)";
                                                                 (* [6] *)
    execute_result "42";                                         (* [7] *)
    stderr ("ic| i: 0" ++ nl); stderr ("ic| i: 1" ++ nl);        (* [9] *)
    stderr ("ic| i: 2" ++ nl); stderr ("ic| i: 3" ++ nl);
    stderr ("ic| ray.get(future): 1" ++ nl);                     (* [10] *)
    stderr ("ic| ray.get(future): 4" ++ nl);
    stderr ("ic| ray.get(future): 0" ++ nl);
    stderr ("ic| ray.get(future): 1" ++ nl) ].

(** The outputs stored in ex_remo_meth.ipynb. *)
Definition recorded_remote_classes : list output :=
  [ stdout ("Dashboard URL: http://127.0.0.1:8265" ++ nl);      (* [1] *)
    execute_result "1" ].                                        (* [4] *)

(** *** States and worlds used as examples *)

(** A connected session in which my_function, slow_function and Counter are
    marked remote and one Counter actor has been created. *)
Definition prepared_cluster : cluster :=
  {| objects := [];
     actors := [{| a_class := RemoteClasses.Counter; a_args := [];
                   a_self := None;
                   a_process := fresh_process (fun _ => 0);
                   mailbox := [] |}] |}.

Definition prepared : state :=
  {| session := Some prepared_cluster;
     remote_functions :=
       [RemoteFunctions.my_function; RemoteFunctions.slow_function];
     actor_classes := [RemoteClasses.Counter];
     joblib_backends := [];
     driver := fresh_process (fun _ => 0);
     outputs := [] |}.

(** The recorded world, except that the cluster loses task [h]. *)
Definition losing (h : nat) (e : exn) : world :=
  {| task_entropy := task_entropy recorded_world;
     actor_entropy := actor_entropy recorded_world;
     driver_entropy := driver_entropy recorded_world;
     fault := fun h' => if Nat.eqb h' h then Some e else None;
     object_id := object_id recorded_world;
     dashboard_url := dashboard_url recorded_world |}.

Definition worker_died : exn := RaySystemError "worker died".

(** A cluster whose only object is a slow_function task that has not run. *)
Definition one_slow_task : cluster :=
  {| objects := [{| producer :=
                      function_task RemoteFunctions.slow_function [];
                    result := None |}];
     actors := [] |}.

End Ray.

(* ------------------------------------------------------------------ *)
(** ** Shapes of traces *)

Module Traces.

(** The trace of the loop of cell [10] of Remote Functions: each ray.get
    that returned is followed by the ic of what it returned, and a ray.get
    that raised ends the trace. *)
Fixpoint echoes (t : list event) : Prop :=
  match t with
  | [] => True
  | (ray_get _, Ok got) :: after =>
      match after with
      | (ic source v, _) :: rest =>
          source = "ray.get(future)" /\ v = got /\ echoes rest
      | _ => False
      end
  | (ray_get _, Fail _) :: after => after = []
  | _ => False
  end.

(** Whether a context manager is entered, and which. *)
Inductive scope : Type :=
| Outside
| Inside (cm : value).

(** The trace of the [with] statement of cell [7] of JobLib: a context
    manager is entered only outside of one, the one that is left is the one
    that was entered, fit is called on [clf] and only inside, and no
    context manager is left entered at the end. *)
Fixpoint backend_scoped (clf : value) (sc : scope) (t : list event) : Prop :=
  match t with
  | [] => sc = Outside
  | (enter cm, Ok _) :: rest =>
      sc = Outside /\ backend_scoped clf (Inside cm) rest
  | (enter _, Fail _) :: rest => sc = Outside /\ rest = []
  | (exit cm, _) :: rest =>
      sc = Inside cm /\ backend_scoped clf Outside rest
  | (method obj meth _, _) :: rest =>
      (if String.eqb meth "fit"
       then obj = clf /\ exists cm, sc = Inside cm
       else True) /\
      backend_scoped clf sc rest
  | _ :: rest => backend_scoped clf sc rest
  end.

Definition is_shutdown (ev : event) : bool :=
  match fst ev with
  | ray_shutdown => true
  | _ => false
  end.

Definition returned (ev : event) : bool :=
  match snd ev with
  | Ok _ => true
  | Fail _ => false
  end.

(** ray.shutdown is called at most once in the trace; when it is called,
    it is the call number [n] (counting from 0) and the [n] calls before
    it have all returned. *)
Definition shutdown_after (n : nat) (t : list event) : Prop :=
  match filter is_shutdown t with
  | [] => True
  | [ev] => nth_error t n = Some ev /\ forallb returned (firstn n t) = true
  | _ => False
  end.

End Traces.
Import Traces.

(* ------------------------------------------------------------------ *)
(** ** Further example states *)

Module Examples.

(** The state [Ray.prepared] after cell [9] of Remote Functions has
    submitted slow_function four times, in the recorded world. *)
Definition submitted_four : Ray.state :=
  snd (fst (run (Ray.step Ray.recorded_world)
              (RemoteFunctions.cell_9 (VRemoteFunction 1)) Ray.prepared)).

(** [Ray.prepared] after register_ray(). *)
Definition registered : Ray.state :=
  snd (Ray.step Ray.recorded_world register_ray Ray.prepared).

End Examples.
Import Examples.

Import Ray.

Open Scope list_scope.

(* ================================================================== *)
(** * Tactics *)

(** Unfolding a notebook along its calls. *)
Ltac walk :=
  repeat (cbn; match goal with
               | |- _ /\ _ => split
               | |- forall _, _ => intro
               | |- True => exact I
               | |- _ = _ => reflexivity
               end).

(** Membership in an explicit list of events or outputs. *)
Ltac found := cbn; repeat (first [left; reflexivity | right]).

(** One of several alternatives that hold by computation. *)
Ltac in_list :=
  match goal with
  | |- _ \/ _ => first [left; in_list | right; in_list]
  | |- _ = _ => reflexivity
  end.

(** Checking a session against the lifecycle. *)
Ltac session :=
  cbv;
  repeat match goal with
         | |- _ /\ _ => split
         | |- forall _, _ => intro
         | |- True => exact I
         | |- _ = _ => reflexivity
         | |- (_ <= _)%nat => lia
         | |- exists _, _ /\ _ =>
             eexists; split; [|solve [in_list]]; solve [in_list]
         | |- (exists _, _ /\ _) \/ _ =>
             first [ left; eexists; split; [|solve [in_list]];
                     solve [in_list]
                   | right; solve [in_list] ]
         | |- _ \/ _ => solve [in_list]
         end.

(** Running a session in an arbitrary world: evaluate, and split on each
    task that the cluster may lose. *)
Ltac evaluate :=
  cbv -[Z.modulo Z.add Z.le Z.lt string_of_Z String.append In].

Ltac in_every_world :=
  evaluate;
  repeat match goal with
         | |- context [match ?f ?h with Some _ => _ | None => _ end] =>
             match type of (f h) with
             | option exn => destruct (f h) eqn:?; evaluate
             end
         end.

(** A property of each event of an explicit trace. *)
Ltac each_event tac :=
  repeat match goal with
         | |- Forall _ [] => constructor
         | |- Forall _ (_ :: _) => constructor; [cbn; tac|]
         end.

(** Pairwise distinct values in an explicit list. *)
Ltac distinct := repeat constructor; cbn; intuition discriminate.

(* ================================================================== *)
(** * Properties of the notebooks, whatever the calls do *)

Section AnyImplementation.

Variable S : Type.
Variable step : op -> S -> outcome value * S.

Lemma last_failure_app (t1 t2 : list event) :
  last_failure (t1 ++ t2) =
  match last_failure t2 with
  | Some e => Some e
  | None => last_failure t1
  end.
Proof.
  induction t1 as [|[o r] t1 IH]; simpl.
  - destruct (last_failure t2); reflexivity.
  - rewrite IH. destruct (last_failure t2); reflexivity.
Qed.

(** Without [try], the outcome of a run is the outcome of its calls: it
    fails exactly with the exception of the last call that raised. *)
Lemma run_verdict (A : Type) (p : nb A) :
  handler_free p ->
  forall s : S,
    match last_failure (snd (run step p s)) with
    | Some e => fst (fst (run step p s)) = Fail e
    | None => exists a, fst (fst (run step p s)) = Ok a
    end.
Proof.
  revert A p.
  refine (nb_ind (fun A p => handler_free p -> forall s : S, _) _ _ _ _).
  - intros A a _ s. simpl. eauto.
  - intros A o k IH Hf s. simpl in *.
    destruct (step o s) as [[v|e] s1]; simpl; [|reflexivity].
    specialize (IH v (Hf v) s1).
    destruct (run step (k v) s1) as [[r' s2] t]. simpl in *.
    destruct (last_failure t); assumption.
  - intros A cm body IHb k IHk [Hb Hk] s. simpl.
    destruct (step (enter cm) s) as [[v|e] s1]; simpl; [|reflexivity].
    specialize (IHb Hb s1).
    destruct (run step body s1) as [[rb s2] tb]. simpl in IHb.
    destruct (step (exit cm) s2) as [[vx|ex] s3].
    + destruct rb as [vb|eb].
      * specialize (IHk vb (Hk vb) s3).
        destruct (run step (k vb) s3) as [[r' s4] t']. simpl in *.
        rewrite !last_failure_app. simpl.
        destruct (last_failure t'); [assumption|].
        destruct (last_failure tb) as [e|]; [discriminate|assumption].
      * simpl. rewrite last_failure_app. simpl.
        destruct (last_failure tb) as [e|].
        -- inversion IHb. reflexivity.
        -- destruct IHb as [a Ha]. discriminate.
    + destruct rb; simpl; rewrite last_failure_app; simpl; reflexivity.
  - intros A body _ handler _ k _ [].
Qed.

(** In a program without [try] and [with], a call that raises is the last
    call made, and its exception is the outcome of the run. *)
Lemma straight_stops (A : Type) (p : nb A) :
  straight p ->
  forall (s : S) (o : op) (e : exn),
    In (o, Fail e) (snd (run step p s)) ->
    fst (fst (run step p s)) = Fail e /\
    exists t0, snd (run step p s) = t0 ++ [(o, Fail e)].
Proof.
  revert A p.
  refine (nb_ind (fun A p => straight p -> forall s o e, _ -> _) _ _ _ _).
  - intros A a _ s o e [].
  - intros A o k IH Hs s o' e Hin. simpl in *.
    destruct (step o s) as [[v|e'] s1]; simpl in *.
    + specialize (IH v (Hs v) s1 o' e).
      destruct (run step (k v) s1) as [[r' s2] t]. simpl in *.
      destruct Hin as [Heq|Hin]; [discriminate|].
      destruct (IH Hin) as [Hr [t0 Ht]].
      split; [assumption|]. exists ((o, Ok v) :: t0). rewrite Ht. reflexivity.
    + destruct Hin as [Heq|[]]. inversion Heq; subst.
      split; [reflexivity|]. exists []. reflexivity.
  - intros A cm body _ k _ [].
  - intros A body _ handler _ k _ [].
Qed.

End AnyImplementation.

Lemma notebooks_handler_free :
  handler_free RemoteFunctions.notebook /\
  handler_free RemoteClasses.notebook /\
  handler_free JobLib.notebook.
Proof. repeat split; walk. Qed.

Lemma notebooks_straight :
  straight RemoteFunctions.notebook /\ straight RemoteClasses.notebook.
Proof. split; walk. Qed.

(** C5. The notebooks contain no exception handler, and whatever the
    framework and the libraries do (for every implementation [step] of the
    calls and every starting state), a session fails exactly when one of
    its calls raises, and then with that call's own exception: the outcome
    of the session is the exception of the last call that raised, and it is
    [Ok] when none did.  In the Remote Functions and Remote Classes
    sessions, where the resolutions are, the call that raises is moreover
    the last call made: nothing catches the exception and no later cell
    runs. *)
Theorem failures_reach_the_caller_unchanged :
  (handler_free RemoteFunctions.notebook /\
   handler_free RemoteClasses.notebook /\
   handler_free JobLib.notebook) /\
  forall (S : Type) (step : op -> S -> outcome value * S) (s : S),
    (forall nbk : nb unit,
        In nbk [RemoteFunctions.notebook; RemoteClasses.notebook;
                JobLib.notebook] ->
        match last_failure (snd (run step nbk s)) with
        | Some e => fst (fst (run step nbk s)) = Fail e
        | None => fst (fst (run step nbk s)) = Ok tt
        end) /\
    (forall nbk : nb unit,
        In nbk [RemoteFunctions.notebook; RemoteClasses.notebook] ->
        forall (o : op) (e : exn),
          In (o, Fail e) (snd (run step nbk s)) ->
          fst (fst (run step nbk s)) = Fail e /\
          exists t0, snd (run step nbk s) = t0 ++ [(o, Fail e)]).
Proof.
  split; [exact notebooks_handler_free|].
  intros S step s. split.
  - intros nbk Hin.
    assert (Hf : handler_free nbk).
    { destruct notebooks_handler_free as [H1 [H2 H3]].
      destruct Hin as [<-|[<-|[<-|[]]]]; assumption. }
    pose proof (run_verdict step nbk Hf s) as H.
    destruct (last_failure (snd (run step nbk s))); [assumption|].
    destruct H as [[] H]. assumption.
  - intros nbk Hin o e Hfail.
    assert (Hs : straight nbk).
    { destruct notebooks_straight as [H1 H2].
      destruct Hin as [<-|[<-|[]]]; assumption. }
    exact (straight_stops step nbk Hs s o e Hfail).
Qed.

(** C7, as stated: some call into the framework is neither a submit nor a
    resolve (ray.init, the first call of the Remote Functions session, is
    one). *)
Lemma ray_init_is_neither_submit_nor_resolve :
  ~ every_call (fun o => submit_or_resolve o = true) RemoteFunctions.notebook.
Proof.
  intros H. cbn in H. destruct H as [H _]. discriminate H.
Qed.

(** C7, amended.  The calls that the notebooks make into the framework
    are, in order: in Remote Functions ray.init, ray.get_dashboard_url,
    @ray.remote on my_function, one .remote(), one ray.get, @ray.remote on
    slow_function, four .remote(), four ray.get and ray.shutdown; in Remote
    Classes ray.init, ray.get_dashboard_url, @ray.remote on Counter,
    Counter.remote(), increment.remote(), one ray.get and ray.shutdown; in
    JobLib ray.init, ray.get_dashboard_url, register_ray and ray.shutdown.
    So next to submit (.remote) and resolve (ray.get) the notebooks make
    session calls and registrations; Remote Functions and Remote Classes
    submit and resolve, JobLib does neither itself: it registers the
    backend and leaves the tasks to joblib. *)
Theorem framework_calls_accounted_for :
  (collects ray_call_of RemoteFunctions.notebook []
     (fun calls =>
        calls = [Init true; DashboardUrl;
                 MarkFunction "my_function"; Submit; Resolve;
                 MarkFunction "slow_function";
                 Submit; Submit; Submit; Submit;
                 Resolve; Resolve; Resolve; Resolve;
                 Shutdown]) /\
   collects ray_call_of RemoteClasses.notebook []
     (fun calls =>
        calls = [Init true; DashboardUrl;
                 MarkClass "Counter"; Submit; SubmitMethod "increment";
                 Resolve; Shutdown]) /\
   collects ray_call_of JobLib.notebook []
     (fun calls =>
        calls = [Init true; DashboardUrl; RegisterRay; Shutdown])) /\
  (some_call (fun o => is_submit o = true) RemoteFunctions.notebook /\
   some_call (fun o => is_resolve o = true) RemoteFunctions.notebook /\
   some_call (fun o => is_submit o = true) RemoteClasses.notebook /\
   some_call (fun o => is_resolve o = true) RemoteClasses.notebook) /\
  (every_call (fun o => is_submit o || is_resolve o = false) JobLib.notebook /\
   some_call (fun o => o = register_ray) JobLib.notebook) /\
  (some_call (fun o => is_session_call o = true) RemoteFunctions.notebook /\
   some_call (fun o => is_session_call o = true) RemoteClasses.notebook /\
   some_call (fun o => is_session_call o = true) JobLib.notebook) /\
  (some_call (fun o => is_registration o = true) RemoteFunctions.notebook /\
   some_call (fun o => is_registration o = true) RemoteClasses.notebook /\
   some_call (fun o => is_registration o = true) JobLib.notebook).
Proof.
  split; [session|].
  repeat split; try solve [walk]; cbn.
  - (* my_function.remote() *)
    do 7 (right; exists VNone; cbn). left. reflexivity.
  - (* ray.get(obj_ref) *)
    do 9 (right; exists VNone; cbn). left. reflexivity.
  - (* Counter.remote() *)
    do 5 (right; exists VNone; cbn). left. reflexivity.
  - (* ray.get(obj_ref) *)
    do 7 (right; exists VNone; cbn). left. reflexivity.
  - (* register_ray() *)
    do 4 (right; exists VNone; cbn). left. reflexivity.
  - left. reflexivity.
  - left. reflexivity.
  - left. reflexivity.
  - (* @ray.remote above my_function *)
    do 6 (right; exists VNone; cbn). left. reflexivity.
  - (* @ray.remote above Counter *)
    do 4 (right; exists VNone; cbn). left. reflexivity.
  - (* register_ray() *)
    do 4 (right; exists VNone; cbn). left. reflexivity.
Qed.



(* ================================================================== *)
(** * Properties of the notebooks on the framework *)

(** ** The object table *)

Lemma nth_error_last (X : Type) (l : list X) (x : X) :
  nth_error (l ++ [x]) (List.length l) = Some x.
Proof.
  rewrite nth_error_app2 by lia. rewrite Nat.sub_diag. reflexivity.
Qed.

Lemma replace_length (X : Type) (n : nat) (x : X) (l : list X) :
  List.length (replace n x l) = List.length l.
Proof.
  revert n. induction l as [|y l IH]; intros [|n]; simpl; auto.
Qed.

Lemma nth_error_replace (X : Type) (n m : nat) (x : X) (l : list X) :
  nth_error (replace n x l) m =
  if Nat.eqb m n then
    match nth_error l n with Some _ => Some x | None => None end
  else nth_error l m.
Proof.
  revert n m. induction l as [|y l IH]; intros [|n] [|m]; simpl; auto.
  destruct (Nat.eqb m n); reflexivity.
Qed.

Lemma set_result_length (h : nat) (r : outcome value) (objs : list object) :
  List.length (set_result h r objs) = List.length objs.
Proof.
  unfold set_result. destruct (nth_error objs h); [apply replace_length|auto].
Qed.

Lemma nth_error_set_result (h m : nat) (r : outcome value)
  (objs : list object) :
  nth_error (set_result h r objs) m =
  if Nat.eqb m h then
    match nth_error objs h with
    | Some ob => Some {| producer := producer ob; result := Some r |}
    | None => None
    end
  else nth_error objs m.
Proof.
  unfold set_result. destruct (nth_error objs h) as [ob|] eqn:E.
  - rewrite nth_error_replace, E. reflexivity.
  - destruct (Nat.eqb_spec m h); subst; auto.
Qed.

(** A function task that is still pending is run by [resolve], which then
    hands over what the body returned, or its exception wrapped, or the
    failure of the cluster. *)
Lemma resolve_function_task (w : world) (cl : cluster) (h : nat)
  (fn : function) (args : list value) :
  nth_error (objects cl) h =
    Some {| producer := function_task fn args; result := None |} ->
  fst (resolve w h cl) =
  match fault w h with
  | Some e => Fail e
  | None =>
      match fst (fst (exec (call fn args) []
                        (fresh_process (task_entropy w h)))) with
      | Ok v => Ok v
      | Fail e => Fail (RayTaskError e)
      end
  end.
Proof.
  intros Hob. unfold resolve, complete, deliver. rewrite Hob. simpl.
  destruct (exec (call fn args) [] (fresh_process (task_entropy w h)))
    as [[r self] p]. simpl.
  rewrite nth_error_set_result, Nat.eqb_refl, Hob. simpl.
  destruct (fault w h); [reflexivity|]. destruct r; reflexivity.
Qed.

(** Submitting a def marked remote enters its task, not yet run, at the
    next free position of the object table and returns the ref; resolving
    the ref then runs it. *)
Lemma submit_then_resolve (w : world) (st : state) (cl : cluster)
  (args : list value) (f : nat) (fn : function) :
  session st = Some cl ->
  nth_error (remote_functions st) f = Some fn ->
  let h := List.length (objects cl) in
  let pending := {| producer := function_task fn args; result := None |} in
  exists st',
    step w (remote (VRemoteFunction f) args) st = (Ok (VObjectRef h), st')
    /\ session st' =
         Some {| objects := objects cl ++ [pending]; actors := actors cl |}
    /\ fst (step w (ray_get (VObjectRef h)) st') =
         match fault w h with
         | Some e => Fail e
         | None =>
             match fst (fst (exec (call fn args) []
                               (fresh_process (task_entropy w h)))) with
             | Ok v => Ok v
             | Fail e => Fail (RayTaskError e)
             end
         end.
Proof.
  intros Hs Hf h pending.
  eexists. unfold step at 1. rewrite Hs, Hf. cbn.
  split; [reflexivity|]. split; [reflexivity|].
  unfold with_session; cbn [session].
  match goal with
  | |- context [resolve w ?n ?c] =>
      pose proof (@resolve_function_task w c n fn args) as R;
      destruct (resolve w n c) as [r c']
  end.
  cbn in *. apply R. apply nth_error_last.
Qed.

(** C1. A call of [.remote] on a def marked remote, or on a method of an
    actor, returns an object ref and nothing else: the ref is the next free
    position of the object table, whatever the callable computes; the task
    is entered in the table without having run, no other object changes,
    and the value reaches the notebook only through a later ray.get on the
    ref.  In the sessions of the notebooks, in every world, each [.remote]
    call hands back an object ref (or, for Counter.remote(), an actor
    handle), and the echo of obj_ref in cell [6] is the ObjectRef. *)
Theorem remote_returns_a_handle :
  (forall (w : world) (st : state) (cl : cluster) (args : list value)
          (f : nat) (fn : function),
      session st = Some cl ->
      nth_error (remote_functions st) f = Some fn ->
      let h := List.length (objects cl) in
      let pending := {| producer := function_task fn args; result := None |} in
      exists st',
        step w (remote (VRemoteFunction f) args) st = (Ok (VObjectRef h), st')
        /\ session st' =
             Some {| objects := objects cl ++ [pending];
                     actors := actors cl |}
        /\ fst (step w (ray_get (VObjectRef h)) st') =
             match fault w h with
             | Some e => Fail e
             | None =>
                 match fst (fst (exec (call fn args) []
                                   (fresh_process (task_entropy w h)))) with
                 | Ok v => Ok v
                 | Fail e => Fail (RayTaskError e)
                 end
             end) /\
  (forall (w : world) (st : state) (cl : cluster) (args : list value)
          (a : nat) (act : actor) (meth : string),
      session st = Some cl ->
      nth_error (actors cl) a = Some act ->
      let h := List.length (objects cl) in
      let pending := {| producer := actor_task a meth args; result := None |} in
      exists st' cl',
        step w (method_remote (VActorHandle a) meth args) st
          = (Ok (VObjectRef h), st')
        /\ session st' = Some cl'
        /\ objects cl' = objects cl ++ [pending]) /\
  (forall w : world,
      Forall (fun ev : event =>
                is_submit (fst ev) = true ->
                exists n, snd ev = Ok (VObjectRef n) \/
                          snd ev = Ok (VActorHandle n))
        (snd (session_of w RemoteFunctions.notebook) ++
         snd (session_of w RemoteClasses.notebook)) /\
      In (display (VObjectRef 0), Ok VNone)
        (snd (session_of w RemoteFunctions.notebook)) /\
      In (execute_result
            (String.append "ObjectRef(" (String.append (object_id w 0%nat) ")")))
        (outputs (snd (fst (session_of w RemoteFunctions.notebook))))).
Proof.
  split; [|split].
  - intros w st cl args f fn Hs Hf. exact (@submit_then_resolve w st cl args f fn Hs Hf).
  - intros w st cl args a act meth Hs Ha h pending.
    unfold step, submit. rewrite Hs, Ha. cbn.
    eexists. eexists. split; [reflexivity|]. split; reflexivity.
  - intros [te ae de fl oid url]. unfold session_of.
    in_every_world.
    all: repeat split; try solve [found].
    all: each_event ltac:(intros; try discriminate; eauto).
Qed.

(** C1 in the recorded world: my_function.remote() in a connected session
    returns ref 0, leaves the task pending, and ray.get of the ref gives
    42. *)
Lemma remote_returns_a_handle_witness :
  exists st',
    step recorded_world (remote (VRemoteFunction 0) []) prepared
      = (Ok (VObjectRef 0), st')
    /\ session st' =
         Some {| objects :=
                   [{| producer := function_task RemoteFunctions.my_function [];
                       result := None |}];
                 actors := actors (match session prepared with
                                   | Some cl => cl
                                   | None => empty_cluster
                                   end) |}
    /\ fst (step recorded_world (ray_get (VObjectRef 0)) st') = Ok (VInt 42).
Proof.
  destruct remote_returns_a_handle as [H _].
  exact (H recorded_world prepared _ [] 0%nat RemoteFunctions.my_function
           eq_refl eq_refl).
Defined.

(** C2. Submitting a def marked remote and resolving the ref gives what
    the direct call of the def gives: for every remote function, arguments
    and value, ray.get of the ref returns the value exactly when the plain
    call, made in a process with the random stream of the task's worker,
    returns it (when the cluster does not lose the task).  In the Remote
    Functions session ray.get(obj_ref) returns 42, as the plain
    my_function() of cell [4] does, and both cells echo 42. *)
Theorem resolve_after_submit_is_the_direct_call :
  (forall (w : world) (st st0 : state) (cl : cluster) (f : nat)
          (fn : function) (args : list value) (v : value),
      session st = Some cl ->
      nth_error (remote_functions st) f = Some fn ->
      fault w (List.length (objects cl)) = None ->
      driver st0 = fresh_process (task_entropy w (List.length (objects cl))) ->
      exists ref st1,
        step w (remote (VRemoteFunction f) args) st = (Ok ref, st1) /\
        (fst (step w (ray_get ref) st1) = Ok v <->
         fst (step w (call_local fn args) st0) = Ok v)) /\
  (forall w : world,
      fault w 0%nat = None ->
      let t := snd (session_of w RemoteFunctions.notebook) in
      let out := outputs (snd (fst (session_of w RemoteFunctions.notebook))) in
      In (call_local RemoteFunctions.my_function [], Ok (VInt 42)) t /\
      In (ray_get (VObjectRef 0), Ok (VInt 42)) t /\
      nth_error out 1 = Some (execute_result "42") /\
      nth_error out 3 = Some (execute_result "42")).
Proof.
  split.
  - intros w st st0 cl f fn args v Hs Hf Hfault Hdriver.
    destruct (@submit_then_resolve w st cl args f fn Hs Hf)
      as [st1 [Hstep [_ Hget]]].
    exists (VObjectRef (List.length (objects cl))), st1.
    split; [exact Hstep|].
    rewrite Hget, Hfault. unfold step. rewrite Hdriver.
    destruct (exec (call fn args) []
                (fresh_process (task_entropy w (List.length (objects cl)))))
      as [[[x|e] self] p]; simpl.
    + reflexivity.
    + split; discriminate.
  - intros [te ae de fl oid url] Hfault. unfold session_of.
    cbn [fault] in Hfault.
    in_every_world.
    all: try congruence.
    all: repeat split; found.
Qed.

(** C2 in the recorded world, for my_function and for the recorded
    session. *)
Lemma resolve_after_submit_is_the_direct_call_witness :
  (exists ref st1,
      step recorded_world (remote (VRemoteFunction 0) []) prepared
        = (Ok ref, st1) /\
      (fst (step recorded_world (ray_get ref) st1) = Ok (VInt 42) <->
       fst (step recorded_world
              (call_local RemoteFunctions.my_function []) prepared)
         = Ok (VInt 42))) /\
  In (ray_get (VObjectRef 0), Ok (VInt 42))
    (snd (session_of recorded_world RemoteFunctions.notebook)).
Proof.
  destruct resolve_after_submit_is_the_direct_call as [H1 H2].
  split.
  - exact (H1 recorded_world prepared prepared _ 0%nat
             RemoteFunctions.my_function [] (VInt 42)
             eq_refl eq_refl eq_refl eq_refl).
  - exact (proj1 (proj2 (H2 recorded_world eq_refl))).
Defined.

(** ** One object per submission *)

Lemma serve_length (c : class) (queue : list nat) (h : nat)
  (self : outcome instance) (p : process) (objs : list object) :
  List.length (snd (serve c queue h self p objs)) = List.length objs.
Proof.
  revert self p objs.
  induction queue as [|h' rest IH]; intros self p objs; simpl; [reflexivity|].
  destruct (option_map producer (nth_error objs h')) as [[f a|a m args]|];
    try apply IH.
  destruct (run_method c m args self p) as [[r self'] p'].
  destruct (Nat.eqb h' h); simpl.
  - apply set_result_length.
  - rewrite IH. apply set_result_length.
Qed.

Lemma complete_length (w : world) (h : nat) (cl : cluster) :
  List.length (objects (complete w h cl)) = List.length (objects cl).
Proof.
  unfold complete.
  destruct (nth_error (objects cl) h) as [ob|]; [|reflexivity].
  destruct (result ob); [reflexivity|].
  destruct (producer ob) as [f args|a m args].
  - destruct (exec (call f args) [] (fresh_process (task_entropy w h)))
      as [[r self] p]. simpl. apply set_result_length.
  - destruct (nth_error (actors cl) a) as [act|]; simpl;
      [|apply set_result_length].
    destruct (match a_self act with
              | Some self => (self, a_process act)
              | None => construct (a_class act) (a_args act) (a_process act)
              end) as [self0 p0].
    pose proof (serve_length (a_class act) (mailbox act) h self0 p0
                  (objects cl)) as H.
    destruct (serve (a_class act) (mailbox act) h self0 p0 (objects cl))
      as [[[self' p'] queue'] objs']. simpl in *. exact H.
Qed.

Lemma resolve_length (w : world) (h : nat) (cl : cluster) :
  List.length (objects (snd (resolve w h cl))) = List.length (objects cl).
Proof.
  unfold resolve. destruct (nth_error (objects cl) h); simpl;
    [apply complete_length|reflexivity].
Qed.

Lemma resolve_all_length (w : world) (refs : list value) (cl : cluster) :
  List.length (objects (snd (resolve_all w refs cl)))
  = List.length (objects cl).
Proof.
  revert cl. induction refs as [|ref rest IH]; intros cl; simpl;
    [reflexivity|].
  destruct ref; try reflexivity.
  pose proof (resolve_length w h cl) as H.
  destruct (resolve w h cl) as [[v|e] cl']; simpl in *; [|exact H].
  specialize (IH cl').
  destruct (resolve_all w rest cl') as [[vs|e] cl'']; simpl in *; congruence.
Qed.

(** Only a submission adds an object to the table. *)
Lemma other_calls_create_no_object (w : world) (o : op) (st st' : state)
  (cl cl' : cluster) (r : outcome value) :
  is_submit o = false ->
  session st = Some cl ->
  step w o st = (r, st') ->
  session st' = Some cl' ->
  List.length (objects cl') = List.length (objects cl).
Proof.
  intros Ho Hs Hstep Hs'.
  destruct o; try discriminate Ho; simpl in Hstep; try rewrite Hs in Hstep.
  all: try (inversion Hstep; subst; simpl in Hs'; congruence).
  - destruct ignore_reinit_error; inversion Hstep; subst; congruence.
  - destruct object_refs; try (inversion Hstep; subst; congruence).
    + pose proof (resolve_all_length w items cl) as H.
      destruct (resolve_all w items cl) as [x cl2].
      inversion Hstep; subst. simpl in *. congruence.
    + pose proof (resolve_length w h cl) as H.
      destruct (resolve w h cl) as [x cl2].
      inversion Hstep; subst. simpl in *. congruence.
  - destruct (exec (call f args) [] (driver st)) as [[x self] p].
    inversion Hstep; subst. simpl in *. congruence.
  - destruct v; inversion Hstep; subst; simpl in *; congruence.
  - destruct (String.eqb fn "joblib.parallel_backend");
      [|inversion Hstep; subst; congruence].
    destruct args as [|[] [|]]; try (inversion Hstep; subst; congruence).
    destruct (existsb (String.eqb s) (joblib_backends st));
      inversion Hstep; subst; congruence.
Qed.

(** An object that has its result keeps it: resolving it again runs
    nothing and hands over what is stored. *)
Lemma resolve_completed (w : world) (cl : cluster) (h : nat) (ob : object)
  (r : outcome value) :
  nth_error (objects cl) h = Some ob ->
  result ob = Some r ->
  resolve w h cl = (deliver w h cl, cl).
Proof.
  intros Hob Hr. unfold resolve, complete. rewrite Hob, Hr. reflexivity.
Qed.

(** A submission that succeeds adds exactly one entry: an object at the
    next free position, whose ref it returns, or (for the call of an actor
    class) an actor at the next free position, whose handle it returns. *)
Lemma submission_creates_one_handle (w : world) (o : op) (st st' : state)
  (cl : cluster) (v : value) :
  is_submit o = true ->
  session st = Some cl ->
  step w o st = (Ok v, st') ->
  exists cl',
    session st' = Some cl' /\
    ((v = VObjectRef (List.length (objects cl)) /\
      List.length (objects cl') = Datatypes.S (List.length (objects cl))) \/
     (v = VActorHandle (List.length (actors cl)) /\
      objects cl' = objects cl /\
      List.length (actors cl') = Datatypes.S (List.length (actors cl)))).
Proof.
  intros Ho Hs Hstep.
  destruct o; try discriminate Ho; simpl in Hstep; rewrite Hs in Hstep.
  - destruct callee; try discriminate Hstep.
    + destruct (nth_error (remote_functions st) f); [|discriminate Hstep].
      inversion Hstep; subst. eexists. split; [reflexivity|]. left.
      split; [reflexivity|]. simpl. rewrite length_app. simpl. lia.
    + destruct (nth_error (actor_classes st) c); [|discriminate Hstep].
      inversion Hstep; subst. eexists. split; [reflexivity|]. right.
      split; [reflexivity|]. split; [reflexivity|].
      simpl. rewrite length_app. simpl. lia.
  - match type of Hstep with
    | context [match ?x with VActorHandle _ => _ | _ => _ end] =>
        destruct x as [| | | | | | | |a|]; try discriminate Hstep
    end.
    destruct (nth_error (actors cl) a) as [act|] eqn:Ha; [|discriminate Hstep].
    unfold submit in Hstep; try rewrite Ha in Hstep.
    inversion Hstep; subst. eexists. split; [reflexivity|]. left.
    split; [reflexivity|]. simpl. rewrite length_app. simpl. lia.
Qed.

(** C3. Each invocation creates exactly one handle: a [.remote] call that
    succeeds adds one entry to the cluster, at the next free position, and
    returns its handle, and no other call adds an object; an object that
    has its result keeps it, a further resolution runs nothing and hands
    over what is stored.  In the Remote Functions session, in every world, the handles returned by the
    submissions are pairwise distinct, no handle is passed to ray.get
    twice, and only handles that a submission returned are resolved; the
    loop of cell [9] leaves four distinct refs in futures_list, and when
    the session runs to its end the loop of cell [10] has resolved each of
    them exactly once (and cell [7] has resolved obj_ref once).  The same
    holds in the Remote Classes session, whose actor handle is never
    resolved. *)
Theorem one_handle_per_invocation_resolved_once :
  (forall (w : world) (o : op) (st st' : state) (cl : cluster) (v : value),
      is_submit o = true ->
      session st = Some cl ->
      step w o st = (Ok v, st') ->
      exists cl',
        session st' = Some cl' /\
        ((v = VObjectRef (List.length (objects cl)) /\
          List.length (objects cl') = Datatypes.S (List.length (objects cl)))
         \/
         (v = VActorHandle (List.length (actors cl)) /\
          objects cl' = objects cl /\
          List.length (actors cl')
            = Datatypes.S (List.length (actors cl))))) /\
  (forall (w : world) (o : op) (st st' : state) (cl cl' : cluster)
          (r : outcome value),
      is_submit o = false ->
      session st = Some cl ->
      step w o st = (r, st') ->
      session st' = Some cl' ->
      List.length (objects cl') = List.length (objects cl)) /\
  (forall (w : world) (cl : cluster) (h : nat) (ob : object)
          (r : outcome value),
      nth_error (objects cl) h = Some ob ->
      result ob = Some r ->
      resolve w h cl = (deliver w h cl, cl)) /\
  (forall w : world,
      let r := fst (fst (session_of w RemoteFunctions.notebook)) in
      let t := snd (session_of w RemoteFunctions.notebook) in
      NoDup (submissions t) /\
      NoDup (resolutions t) /\
      incl (resolutions t) (submissions t) /\
      (forall futures_list,
          fst (fst (run (step w) RemoteFunctions.through_cell_9 (initial w)))
            = Ok futures_list ->
          futures_list = map VObjectRef [1; 2; 3; 4]%nat /\
          NoDup futures_list) /\
      (r = Ok tt ->
       submissions t = map VObjectRef [0; 1; 2; 3; 4]%nat /\
       resolutions t = map VObjectRef [0; 1; 2; 3; 4]%nat)) /\
  (forall w : world,
      let r := fst (fst (session_of w RemoteClasses.notebook)) in
      let t := snd (session_of w RemoteClasses.notebook) in
      NoDup (submissions t) /\
      NoDup (resolutions t) /\
      incl (resolutions t) (submissions t) /\
      submissions t = [VActorHandle 0; VObjectRef 0] /\
      resolutions t = [VObjectRef 0]).
Proof.
  split; [|split; [|split; [|split]]].
  - intros w o st st' cl v. apply submission_creates_one_handle.
  - intros w o st st' cl cl' r. apply other_calls_create_no_object.
  - intros w cl h ob r. apply resolve_completed.
  - intros [te ae de fl oid url]. unfold session_of.
    in_every_world.
    all: repeat match goal with |- _ /\ _ => split end.
    all: try solve [distinct].
    all: try solve [intros x Hx; cbn in *; intuition].
    all: try solve [intros x Hx; inversion Hx; subst; reflexivity || distinct].
    all: try discriminate.
    all: try solve [intros _; split; reflexivity].
  - intros [te ae de fl oid url]. unfold session_of.
    in_every_world.
    all: repeat match goal with |- _ /\ _ => split end.
    all: try solve [distinct].
    all: try solve [intros x Hx; cbn in *; intuition].
    all: try reflexivity.
Qed.

(** ** The Counter class *)

Lemma getattr_setattr (self : instance) (name : string) (v : value) :
  getattr (setattr self name v) name = Some v.
Proof.
  induction self as [|[k x] rest IH]; simpl.
  - rewrite String.eqb_refl. reflexivity.
  - destruct (String.eqb k name) eqn:E; simpl; rewrite E; auto.
Qed.

Lemma Counter_init (p : process) :
  construct RemoteClasses.Counter [] p = (Ok [("value"%string, VInt 0)], p).
Proof. reflexivity. Qed.

Lemma Counter_increment (self : instance) (p : process) (v : Z) :
  getattr self "value" = Some (VInt v) ->
  exec (call RemoteClasses.increment []) self p =
  (Ok (VInt (v + 1)), setattr self "value" (VInt (v + 1)), p).
Proof.
  intros H. cbn. rewrite H. cbn. rewrite getattr_setattr. reflexivity.
Qed.

(** One call of increment served by an actor of class Counter. *)
Lemma serve_increment_step (a h' h : nat) (rest : list nat) (self : instance)
  (p : process) (objs : list object) (v : Z) :
  nth_error objs h' =
    Some {| producer := actor_task a "increment" []; result := None |} ->
  getattr self "value" = Some (VInt v) ->
  serve RemoteClasses.Counter (h' :: rest) h (Ok self) p objs =
  if Nat.eqb h' h
  then (Ok (setattr self "value" (VInt (v + 1))), p, rest,
        set_result h' (Ok (VInt (v + 1))) objs)
  else serve RemoteClasses.Counter rest h
         (Ok (setattr self "value" (VInt (v + 1)))) p
         (set_result h' (Ok (VInt (v + 1))) objs).
Proof.
  intros H0 Hv. cbn [serve]. rewrite H0. cbn [option_map producer].
  unfold run_method. cbn [find_method methods RemoteClasses.Counter].
  cbn [name RemoteClasses.__init__ RemoteClasses.increment String.eqb
       Ascii.eqb Bool.eqb].
  rewrite (Counter_increment self p Hv). reflexivity.
Qed.

(** An actor of class Counter whose instance holds [v] serves a mailbox of
    [k + 1] increment calls by storing v+1, ..., v+k+1 in their objects. *)
Lemma serve_increments (a : nat) (k : nat) :
  forall (n0 : nat) (v : Z) (self : instance) (p : process)
         (objs : list object),
    getattr self "value" = Some (VInt v) ->
    (forall i, (i <= k)%nat ->
               nth_error objs (n0 + i) =
               Some {| producer := actor_task a "increment" [];
                       result := None |}) ->
    nth_error
      (snd (serve RemoteClasses.Counter (seq n0 (Datatypes.S k)) (n0 + k)
              (Ok self) p objs))
      (n0 + k) =
    Some {| producer := actor_task a "increment" [];
            result := Some (Ok (VInt (v + Z.of_nat k + 1))) |}.
Proof.
  induction k as [|k IH]; intros n0 v self p objs Hv Hobjs.
  - pose proof (Hobjs 0%nat (Nat.le_refl _)) as H0.
    rewrite Nat.add_0_r in *.
    change (seq n0 1) with [n0].
    rewrite (@serve_increment_step a n0 n0 [] self p objs v H0 Hv).
    rewrite Nat.eqb_refl. cbn [snd].
    rewrite nth_error_set_result, Nat.eqb_refl, H0. cbn.
    replace (v + 0 + 1) with (v + 1) by lia. reflexivity.
  - pose proof (Hobjs 0%nat (Nat.le_0_l _)) as H0.
    rewrite Nat.add_0_r in H0.
    change (seq n0 (Datatypes.S (Datatypes.S k)))
      with (n0 :: seq (Datatypes.S n0) (Datatypes.S k)).
    rewrite (@serve_increment_step a n0 (n0 + Datatypes.S k)
               (seq (Datatypes.S n0) (Datatypes.S k)) self p objs v H0 Hv).
    destruct (Nat.eqb_spec n0 (n0 + Datatypes.S k)) as [E|_]; [lia|].
    replace (n0 + Datatypes.S k)%nat with (Datatypes.S n0 + k)%nat by lia.
    rewrite (IH (Datatypes.S n0) (v + 1)).
    + replace (v + 1 + Z.of_nat k + 1)
        with (v + Z.of_nat (Datatypes.S k) + 1) by lia.
      reflexivity.
    + apply getattr_setattr.
    + intros i Hi. rewrite nth_error_set_result.
      destruct (Nat.eqb_spec (Datatypes.S n0 + i) n0) as [E|_]; [lia|].
      replace (Datatypes.S n0 + i)%nat with (n0 + Datatypes.S i)%nat by lia.
      apply Hobjs. lia.
Qed.
Section Binding.

Variable S : Type.
Variable step : op -> S -> outcome value * S.

(** Running [p] and then [f]: the run of [p], followed by the run of [f]
    on its value if it returned one. *)
Lemma run_bind (A : Type) (p : nb A) :
  forall (B : Type) (f : A -> nb B) (s : S),
    run step (nb_bind p f) s =
    match run step p s with
    | (Ok a, s1, t) =>
        let '(r, s2, t') := run step (f a) s1 in (r, s2, t ++ t')
    | (Fail e, s1, t) => (Fail e, s1, t)
    end.
Proof.
  revert A p.
  refine (nb_ind (fun A p => forall B f s, _) _ _ _ _).
  - intros A a B f s. simpl.
    destruct (run step (f a) s) as [[r s2] t]. reflexivity.
  - intros A o k IH B f s. simpl.
    destruct (step o s) as [[v|e] s1]; [|reflexivity].
    rewrite IH.
    destruct (run step (k v) s1) as [[[a|e] s2] t]; [|reflexivity].
    destruct (run step (f a) s2) as [[r s3] t']. reflexivity.
  - intros A cm body _ k IH B f s. simpl.
    destruct (step (enter cm) s) as [[v|e] s1]; [|reflexivity].
    destruct (run step body s1) as [[rb s2] tb].
    destruct (step (exit cm) s2) as [[vx|ex] s3]; [|reflexivity].
    destruct rb as [vb|eb]; [|reflexivity].
    rewrite IH.
    destruct (run step (k vb) s3) as [[[a|e] s4] t]; [|reflexivity].
    destruct (run step (f a) s4) as [[r s5] t'].
    simpl; rewrite <- ?app_assoc; reflexivity.
  - intros A body _ handler _ k IH B f s. simpl.
    destruct (run step body s) as [[[vb|eb] s1] tb].
    + rewrite IH.
      destruct (run step (k vb) s1) as [[[a|e] s2] t]; [|reflexivity].
      destruct (run step (f a) s2) as [[r s3] t'].
      simpl; rewrite <- ?app_assoc; reflexivity.
    + destruct (run step (handler eb) s1) as [[[vh|eh] s2] th]; [|reflexivity].
      rewrite IH.
      destruct (run step (k vh) s2) as [[[a|e] s3] t]; [|reflexivity].
      destruct (run step (f a) s3) as [[r s4] t'].
      simpl; rewrite <- ?app_assoc; reflexivity.
Qed.

End Binding.
(** ** Calls of an actor's method, one after the other *)

Lemma submit_actor_task (cl : cluster) (a : nat) (act : actor)
  (meth : string) (args : list value) :
  nth_error (actors cl) a = Some act ->
  submit (actor_task a meth args) cl =
  (List.length (objects cl),
   {| objects := objects cl ++ [pending_call a meth args];
      actors :=
        replace a
          (with_mailbox act (mailbox act ++ [List.length (objects cl)]))
          (actors cl) |}).
Proof. intros H. unfold submit. rewrite H. reflexivity. Qed.

Lemma submit_n_actor_task (a : nat) (meth : string) (args : list value)
  (k : nat) :
  forall (cl : cluster) (act : actor),
    nth_error (actors cl) a = Some act ->
    objects (submit_n (actor_task a meth args) k cl) =
      objects cl ++ repeat (pending_call a meth args) k /\
    nth_error (actors (submit_n (actor_task a meth args) k cl)) a =
      Some (with_mailbox act
              (mailbox act ++ seq (List.length (objects cl)) k)).
Proof.
  induction k as [|k IH]; intros cl act Ha.
  - simpl. rewrite !app_nil_r. split; [reflexivity|].
    rewrite Ha. destruct act; reflexivity.
  - cbn [submit_n]. rewrite (@submit_actor_task cl a act meth args Ha). cbn [snd].
    set (act1 := with_mailbox act (mailbox act ++ [List.length (objects cl)])).
    set (cl1 := {| objects := objects cl ++ [pending_call a meth args];
                   actors := replace a act1 (actors cl) |}).
    assert (Ha1 : nth_error (actors cl1) a = Some act1).
    { unfold cl1. cbn [actors].
      rewrite nth_error_replace, Nat.eqb_refl, Ha. reflexivity. }
    destruct (IH cl1 act1 Ha1) as [Hobjs Hact].
    rewrite Hobjs, Hact. unfold cl1, act1, with_mailbox. cbn.
    rewrite length_app, <- !app_assoc. cbn.
    rewrite Nat.add_1_r. split; reflexivity.
Qed.

Lemma submit_n_snoc (t : task) (k : nat) :
  forall cl : cluster,
    submit_n t (Datatypes.S k) cl = snd (submit t (submit_n t k cl)).
Proof.
  induction k as [|k IH]; intros cl; [reflexivity|].
  change (submit_n t (Datatypes.S (Datatypes.S k)) cl)
    with (submit_n t (Datatypes.S k) (snd (submit t cl))).
  rewrite IH. reflexivity.
Qed.

(** The (k+1)-th call of increment on a Counter that was just created
    resolves to k+1, unless the cluster loses it. *)
Lemma resolve_nth_increment (w : world) (cl : cluster) (a : nat)
  (act : actor) (k : nat) :
  nth_error (actors cl) a = Some act ->
  a_class act = RemoteClasses.Counter ->
  a_args act = [] ->
  a_self act = None ->
  mailbox act = [] ->
  fst (resolve w (List.length (objects cl) + k)
         (submit_n (actor_task a "increment" []) (Datatypes.S k) cl)) =
  match fault w (List.length (objects cl) + k) with
  | Some e => Fail e
  | None => Ok (VInt (Z.of_nat k + 1))
  end.
Proof.
  intros Ha Hclass Hargs Hself Hbox.
  destruct (@submit_n_actor_task a "increment" [] (Datatypes.S k) cl act Ha)
    as [Hobjs Hact].
  set (cl' := submit_n (actor_task a "increment" []) (Datatypes.S k) cl) in *.
  set (n0 := List.length (objects cl)) in *.
  assert (Hpending : forall i, (i <= k)%nat ->
            nth_error (objects cl') (n0 + i)
            = Some (pending_call a "increment" [])).
  { intros i Hi. rewrite Hobjs, nth_error_app2 by (unfold n0; lia).
    replace (n0 + i - List.length (objects cl))%nat with i by (unfold n0; lia).
    apply nth_error_repeat. lia. }
  unfold resolve, complete, deliver.
  rewrite (Hpending k (Nat.le_refl _)). cbn [result producer pending_call].
  rewrite Hact. unfold with_mailbox.
  cbn [a_self a_class a_args a_process mailbox].
  rewrite Hself, Hclass, Hargs, Hbox, Counter_init. cbn [app].
  pose proof (@serve_increments a k n0 0 [("value"%string, VInt 0)]
                (a_process act) (objects cl') eq_refl Hpending) as Hserve.
  fold cl' in Hserve.
  destruct (serve RemoteClasses.Counter (seq n0 (Datatypes.S k)) (n0 + k)
              (Ok [("value"%string, VInt 0)]) (a_process act) (objects cl'))
    as [[[self' p'] queue'] objs'] eqn:E.
  assert (Hh : nth_error objs' (n0 + k) =
               Some {| producer := actor_task a "increment" [];
                       result := Some (Ok (VInt (0 + Z.of_nat k + 1))) |}).
  { change objs' with (snd (self', p', queue', objs')). rewrite <- E.
    exact Hserve. }
  cbn [objects]. rewrite Hh. cbn.
  destruct (fault w (n0 + k)); reflexivity.
Qed.
Lemma step_method_remote (w : world) (st : state) (cl : cluster) (a : nat)
  (act : actor) (meth : string) (args : list value) :
  session st = Some cl ->
  nth_error (actors cl) a = Some act ->
  step w (method_remote (VActorHandle a) meth args) st =
  (Ok (VObjectRef (List.length (objects cl))),
   with_session st (Some (snd (submit (actor_task a meth args) cl)))).
Proof.
  intros Hs Ha. unfold step. rewrite Hs, Ha.
  rewrite (@submit_actor_task cl a act meth args Ha). reflexivity.
Qed.

(** The loop of [after_increments]: [k] submissions, nothing resolved. *)
Lemma run_increment_loop (w : world) (a : nat) (k : nat) :
  forall (s0 : nat) (st : state) (cl : cluster) (act : actor),
    session st = Some cl ->
    nth_error (actors cl) a = Some act ->
    run (step w)
      (for_in (seq s0 k)
         (fun _ _ =>
            _ <- do (method_remote (VActorHandle a) "increment" []);;
            Done tt)
         tt) st =
    (Ok tt,
     with_session st (Some (submit_n (actor_task a "increment" []) k cl)),
     map (fun h => (method_remote (VActorHandle a) "increment" [],
                    Ok (VObjectRef h)))
       (seq (List.length (objects cl)) k)).
Proof.
  induction k as [|k IH]; intros s0 st cl act Hs Ha.
  - cbn. rewrite <- Hs. destruct st; reflexivity.
  - cbn [seq for_in]. cbn [bind nb_monad do nb_bind run].
    rewrite (@step_method_remote w st cl a act "increment" [] Hs Ha).
    rewrite (@submit_actor_task cl a act "increment" [] Ha). cbn [snd].
    set (act1 := with_mailbox act (mailbox act ++ [List.length (objects cl)])).
    set (cl1 := {| objects := objects cl ++ [pending_call a "increment" []];
                   actors := replace a act1 (actors cl) |}).
    assert (Ha1 : nth_error (actors cl1) a = Some act1).
    { unfold cl1. cbn [actors].
      rewrite nth_error_replace, Nat.eqb_refl, Ha. reflexivity. }
    pose proof (IH (Datatypes.S s0) (with_session st (Some cl1)) cl1 act1
                  eq_refl Ha1) as IH1.
    cbn [bind nb_monad do nb_bind] in IH1. rewrite IH1.
    cbn [submit_n].
    rewrite (@submit_actor_task cl a act "increment" [] Ha). cbn [snd].
    fold act1. fold cl1.
    unfold cl1 at 3. cbn [objects]. rewrite length_app. cbn [List.length].
    rewrite Nat.add_1_r. reflexivity.
Qed.
Lemma step_create_actor (w : world) (st : state) (cl : cluster) (c : nat)
  (cls : class) (args : list value) :
  session st = Some cl ->
  nth_error (actor_classes st) c = Some cls ->
  step w (remote (VActorClass c) args) st =
  (Ok (VActorHandle (List.length (actors cl))),
   with_session st
     (Some {| objects := objects cl;
              actors :=
                actors cl ++
                [{| a_class := cls; a_args := args; a_self := None;
                    a_process :=
                      fresh_process (actor_entropy w (List.length (actors cl)));
                    mailbox := [] |}] |})).
Proof. intros Hs Hc. unfold step. rewrite Hs, Hc. reflexivity. Qed.

Lemma step_ray_get (w : world) (st : state) (cl : cluster) (h : nat) :
  session st = Some cl ->
  step w (ray_get (VObjectRef h)) st =
  (fst (resolve w h cl), with_session st (Some (snd (resolve w h cl)))).
Proof.
  intros Hs. unfold step. rewrite Hs.
  destruct (resolve w h cl). reflexivity.
Qed.

(** C8. A Counter that was just constructed holds value 0; increment adds
    exactly 1 to value and returns the new value.  Hence, for every k, when
    k + 1 calls of increment are submitted to a fresh Counter actor, the
    last of them, the (k+1)-th, resolves to k + 1 and cell [4] echoes k + 1
    (unless the cluster loses the call); in the Remote Classes session the
    first increment resolves to 1 and cell [4] echoes 1. *)
Theorem the_nth_increment_returns_n :
  (forall p : process,
      construct RemoteClasses.Counter [] p
      = (Ok [("value"%string, VInt 0)], p)) /\
  (forall (self : instance) (p : process) (v : Z),
      getattr self "value" = Some (VInt v) ->
      exec (call RemoteClasses.increment []) self p =
      (Ok (VInt (v + 1)), setattr self "value" (VInt (v + 1)), p)) /\
  (forall (w : world) (st : state) (cl : cluster) (c k : nat),
      session st = Some cl ->
      nth_error (actor_classes st) c = Some RemoteClasses.Counter ->
      fault w (List.length (objects cl) + k) = None ->
      let h := (List.length (objects cl) + k)%nat in
      let ran :=
        run (step w) (RemoteClasses.after_increments k (VActorClass c)) st in
      fst (fst ran) = Ok (VObjectRef h) /\
      In (ray_get (VObjectRef h), Ok (VInt (Z.of_nat k + 1))) (snd ran) /\
      outputs (snd (fst ran)) =
        outputs st ++ [execute_result (string_of_Z (Z.of_nat k + 1))]) /\
  (forall w : world,
      fault w 0%nat = None ->
      In (ray_get (VObjectRef 0), Ok (VInt 1))
        (snd (session_of w RemoteClasses.notebook)) /\
      nth_error (outputs (snd (fst (session_of w RemoteClasses.notebook)))) 1
      = Some (execute_result "1")).
Proof.
  split; [exact Counter_init|]. split; [exact Counter_increment|]. split.
  - intros w st cl c k Hs Hc Hfault h ran.
    enough (E : exists st' t,
               ran = (Ok (VObjectRef h), st', t) /\
               In (ray_get (VObjectRef h), Ok (VInt (Z.of_nat k + 1))) t /\
               outputs st' =
                 outputs st ++
                 [execute_result (string_of_Z (Z.of_nat k + 1))]).
    { destruct E as [st' [t [E [Hin Hout]]]]. rewrite E. cbn.
      repeat split; assumption. }
    subst ran. eexists. eexists.
    unfold RemoteClasses.after_increments.
    cbn [bind nb_monad]. rewrite run_bind.
    unfold RemoteClasses.cell_3, do at 1. cbn [run].
    rewrite (@step_create_actor w st cl c RemoteClasses.Counter [] Hs Hc).
    set (a := List.length (actors cl)).
    set (act := {| a_class := RemoteClasses.Counter; a_args := [];
                   a_self := None;
                   a_process := fresh_process (actor_entropy w a);
                   mailbox := [] |}).
    set (cl1 := {| objects := objects cl; actors := actors cl ++ [act] |}).
    assert (Ha : nth_error (actors cl1) a = Some act)
      by apply nth_error_last.
    rewrite run_bind.
    pose proof (@run_increment_loop w a k 0%nat (with_session st (Some cl1))
                  cl1 act eq_refl Ha) as Hloop.
    cbn [bind nb_monad] in Hloop. rewrite Hloop. clear Hloop.
    set (cl2 := submit_n (actor_task a "increment" []) k cl1).
    destruct (@submit_n_actor_task a "increment" [] k cl1 act Ha)
      as [Hobjs2 Hact2]. fold cl2 in Hobjs2, Hact2.
    unfold RemoteClasses.cell_4. cbn [bind nb_monad do nb_bind run].
    erewrite (@step_method_remote w _ cl2 a _ "increment" []);
      [|reflexivity|exact Hact2].
    unfold cl2 at 3. rewrite <- submit_n_snoc.
    assert (Hh : List.length (objects cl2) = h).
    { rewrite Hobjs2, length_app, repeat_length. reflexivity. }
    rewrite Hh.
    erewrite (@step_ray_get w _ _ h); [|reflexivity].
    pose proof (@resolve_nth_increment w cl1 a act k Ha eq_refl eq_refl
                  eq_refl eq_refl) as Hres.
    change (fst (resolve w h (submit_n (actor_task a "increment" [])
                                        (Datatypes.S k) cl1)) =
            match fault w h with
            | Some e => Fail e
            | None => Ok (VInt (Z.of_nat k + 1))
            end) in Hres.
    change (fault w h = None) in Hfault.
    rewrite Hfault in Hres. rewrite Hres.
    cbn. split; [reflexivity|]. split.
    + right. apply in_or_app. right. right. left. reflexivity.
    + reflexivity.
  - intros [te ae de fl oid url] Hfault. unfold session_of.
    cbn [fault] in Hfault.
    in_every_world.
    all: try congruence.
    all: split; [found|reflexivity].
Qed.
(** ** slow_function *)

Lemma slow_function_body (self : instance) (p : process) :
  exec (call RemoteFunctions.slow_function []) self p =
  (Ok (VInt (0 + entropy p (draws p) mod (9 - 0 + 1))), self,
   {| entropy := entropy p; draws := Datatypes.S (draws p);
      slept := slept p + 2 |}).
Proof. reflexivity. Qed.

(** C9. Every call of slow_function returns an integer between 0 and 9
    (after sleeping for 2 seconds), in every process and whatever its
    random generator draws.  So resolving a pending slow_function task
    hands over an integer between 0 and 9 unless the cluster lost the task,
    and in the Remote Functions session, in every world, every ray.get of
    the loop of cell [10] over futures_list hands over such an integer if
    it hands over a value.  The bounds are reached: each of 0, ..., 9 is
    returned for some draw. *)
Theorem slow_function_returns_0_to_9 :
  (forall (self : instance) (p : process),
      exists n : Z,
        fst (fst (exec (call RemoteFunctions.slow_function []) self p))
          = Ok (VInt n) /\
        0 <= n <= 9 /\
        slept (snd (exec (call RemoteFunctions.slow_function []) self p))
          = slept p + 2) /\
  (forall (w : world) (cl : cluster) (h : nat),
      nth_error (objects cl) h =
        Some {| producer := function_task RemoteFunctions.slow_function [];
                result := None |} ->
      from_0_to_9 (fst (resolve w h cl)) /\
      (fault w h = None -> exists n, fst (resolve w h cl) = Ok (VInt n))) /\
  (forall w : world,
      match run (step w) RemoteFunctions.through_cell_9 (initial w) with
      | (Ok futures_list, st, _) =>
          Forall from_0_to_9
            (resolved_to (fun _ => true)
               (snd (run (step w) (RemoteFunctions.cell_10 futures_list) st)))
          /\
          resolutions
            (snd (run (step w) (RemoteFunctions.cell_10 futures_list) st))
          = firstn
              (List.length
                 (resolutions
                    (snd (run (step w)
                            (RemoteFunctions.cell_10 futures_list) st))))
              futures_list
      | (Fail _, _, _) => True
      end) /\
  (forall n : Z,
      0 <= n <= 9 ->
      fst (fst (exec (call RemoteFunctions.slow_function []) []
                  (fresh_process (fun _ => n))))
      = Ok (VInt n)).
Proof.
  split; [|split; [|split]].
  - intros self p. rewrite slow_function_body. cbn [fst snd slept].
    eexists. split; [reflexivity|]. split; [|reflexivity].
    change (9 - 0 + 1) with 10.
    pose proof (Z.mod_pos_bound (entropy p (draws p)) 10 ltac:(lia)). lia.
  - intros w cl h Hob.
    rewrite (@resolve_function_task w cl h RemoteFunctions.slow_function []
               Hob).
    rewrite slow_function_body. cbn [fst].
    split.
    + destruct (fault w h); cbn; [exact I|].
      change (9 - 0 + 1) with 10.
      pose proof (Z.mod_pos_bound (task_entropy w h 0%nat) 10 ltac:(lia)).
      lia.
    + intros ->. eexists. reflexivity.
  - intros [te ae de fl oid url].
    in_every_world.
    all: try exact I.
    all: split; [|reflexivity].
    all: repeat constructor.
    all: match goal with
         | |- context [?x mod ?m] =>
             change m with 10;
             pose proof (Z.mod_pos_bound x 10 ltac:(lia)); lia
         end.
  - intros n Hn. cbn. rewrite Z.mod_small by lia. reflexivity.
Qed.
(** ** Session bootstrap *)

(** C10. Every ray.init of the three notebooks passes
    ignore_reinit_error=True (and each notebook calls ray.init).  With that
    flag, ray.init on a session that is already connected raises nothing
    and changes nothing: the session, with its objects and actors, remains
    as it was; so the bootstrap cell can be run again in a connected
    session, after which only the dashboard line has been printed once
    more.  (Without the flag the same call raises.) *)
Theorem repeated_bootstrap_is_accepted :
  (every_call (fun o => ignores_reinit o = true) RemoteFunctions.notebook /\
   every_call (fun o => ignores_reinit o = true) RemoteClasses.notebook /\
   every_call (fun o => ignores_reinit o = true) JobLib.notebook) /\
  (some_call (fun o => o = ray_init true logging_ERROR)
     RemoteFunctions.notebook /\
   some_call (fun o => o = ray_init true logging_ERROR)
     RemoteClasses.notebook /\
   some_call (fun o => o = ray_init true logging_ERROR) JobLib.notebook) /\
  (forall (w : world) (st : state) (cl : cluster) (level : Z),
      session st = Some cl ->
      step w (ray_init true level) st = (Ok VNone, st) /\
      exists e, step w (ray_init false level) st = (Fail e, st)) /\
  (forall (w : world) (st : state) (cl : cluster) (cell_1 : nb unit),
      In cell_1 [RemoteFunctions.cell_1; RemoteClasses.cell_1;
                 JobLib.cell_1] ->
      session st = Some cl ->
      fst (run (step w) cell_1 st) =
      (Ok tt,
       with_output st
         [stdout
            (String.append
               (concat_str (object_id w)
                  [VStr "Dashboard URL: http://"; VStr (dashboard_url w)])
               nl)])).
Proof.
  split; [|split; [|split]].
  - repeat split; walk.
  - repeat split; left; reflexivity.
  - intros w st cl level Hs. unfold step. rewrite Hs.
    split; [reflexivity|]. eexists. reflexivity.
  - intros w st cl cell_1 Hin Hs.
    assert (E : cell_1 = RemoteFunctions.cell_1).
    { destruct Hin as [<-|[<-|[<-|[]]]]; reflexivity. }
    subst cell_1. unfold RemoteFunctions.cell_1.
    cbn [bind nb_monad do nb_bind run].
    unfold step at 1. rewrite Hs.
    unfold step at 1. rewrite Hs.
    reflexivity.
Qed.

(** ** The recorded sessions *)

(** In the recorded world the sessions run to their end and print what the
    notebooks have stored as outputs. *)
Lemma recorded_sessions_reproduced :
  (fst (fst (session_of recorded_world RemoteFunctions.notebook)) = Ok tt /\
   outputs (snd (fst (session_of recorded_world RemoteFunctions.notebook)))
   = recorded_remote_functions) /\
  (fst (fst (session_of recorded_world RemoteClasses.notebook)) = Ok tt /\
   outputs (snd (fst (session_of recorded_world RemoteClasses.notebook)))
   = recorded_remote_classes) /\
  fst (fst (session_of recorded_world JobLib.notebook)) = Ok tt.
Proof. vm_compute. repeat split; reflexivity. Qed.
(** ** The theorems at concrete sessions *)

(** C3 in the recorded world: slow_function.remote() in a connected session
    adds one object, and the recorded session submits and resolves the
    refs 0 to 4 once each. *)
Lemma one_handle_per_invocation_resolved_once_witness :
  (exists cl',
      session (snd (step recorded_world (remote (VRemoteFunction 1) [])
                      prepared)) = Some cl' /\
      ((VObjectRef 0 = VObjectRef (List.length (objects prepared_cluster)) /\
        List.length (objects cl')
        = Datatypes.S (List.length (objects prepared_cluster))) \/
       (VObjectRef 0 = VActorHandle (List.length (actors prepared_cluster)) /\
        objects cl' = objects prepared_cluster /\
        List.length (actors cl')
        = Datatypes.S (List.length (actors prepared_cluster))))) /\
  (submissions (snd (session_of recorded_world RemoteFunctions.notebook))
   = map VObjectRef [0; 1; 2; 3; 4]%nat /\
   resolutions (snd (session_of recorded_world RemoteFunctions.notebook))
   = map VObjectRef [0; 1; 2; 3; 4]%nat).
Proof.
  destruct one_handle_per_invocation_resolved_once as [H1 [_ [_ [H3 _]]]].
  split.
  - exact (H1 recorded_world (remote (VRemoteFunction 1) []) prepared _
             prepared_cluster (VObjectRef 0) eq_refl eq_refl eq_refl).
  - exact (proj2 (proj2 (proj2 (proj2 (H3 recorded_world)))) eq_refl).
Defined.

(** C5 in a world that loses task 0: the Remote Functions session ends at
    ray.get(obj_ref) with the error of the cluster. *)
Lemma failures_reach_the_caller_unchanged_witness :
  fst (fst (session_of (losing 0 worker_died) RemoteFunctions.notebook))
  = Fail worker_died /\
  exists t0,
    snd (session_of (losing 0 worker_died) RemoteFunctions.notebook)
    = t0 ++ [(ray_get (VObjectRef 0), Fail worker_died)].
Proof.
  destruct failures_reach_the_caller_unchanged as [_ H].
  destruct (H state (step (losing 0 worker_died))
              (initial (losing 0 worker_died))) as [_ H2].
  apply (H2 RemoteFunctions.notebook).
  - left. reflexivity.
  - vm_compute. found.
Defined.

(** C8 in the recorded world: the third increment resolves to 3, and the
    increment of the recorded session to 1. *)
Lemma the_nth_increment_returns_n_witness :
  In (ray_get (VObjectRef 2), Ok (VInt 3))
    (snd (run (step recorded_world)
            (RemoteClasses.after_increments 2 (VActorClass 0)) prepared)) /\
  In (ray_get (VObjectRef 0), Ok (VInt 1))
    (snd (session_of recorded_world RemoteClasses.notebook)).
Proof.
  destruct the_nth_increment_returns_n as [_ [_ [H3 H4]]].
  split.
  - exact (proj1 (proj2 (H3 recorded_world prepared prepared_cluster
                           0%nat 2%nat eq_refl eq_refl eq_refl))).
  - exact (proj1 (H4 recorded_world eq_refl)).
Defined.

(** C9 in the recorded world, and for the draw 7. *)
Lemma slow_function_returns_0_to_9_witness :
  (from_0_to_9 (fst (resolve recorded_world 0 one_slow_task)) /\
   exists n, fst (resolve recorded_world 0 one_slow_task) = Ok (VInt n)) /\
  fst (fst (exec (call RemoteFunctions.slow_function []) []
              (fresh_process (fun _ => 7))))
  = Ok (VInt 7).
Proof.
  destruct slow_function_returns_0_to_9 as [_ [H2 [_ H4]]].
  split.
  - destruct (H2 recorded_world one_slow_task 0%nat eq_refl) as [Ha Hb].
    split; [exact Ha|exact (Hb eq_refl)].
  - apply (H4 7). lia.
Defined.

(** C10 in the recorded world, on a connected session. *)
Lemma repeated_bootstrap_is_accepted_witness :
  (step recorded_world (ray_init true logging_ERROR) prepared
   = (Ok VNone, prepared) /\
   exists e,
     step recorded_world (ray_init false logging_ERROR) prepared
     = (Fail e, prepared)) /\
  fst (run (step recorded_world) RemoteClasses.cell_1 prepared) =
  (Ok tt,
   with_output prepared
     [stdout
        (String.append
           (concat_str (object_id recorded_world)
              [VStr "Dashboard URL: http://";
               VStr (dashboard_url recorded_world)])
           nl)]).
Proof.
  destruct repeated_bootstrap_is_accepted as [_ [_ [H3 H4]]].
  split.
  - exact (H3 recorded_world prepared prepared_cluster logging_ERROR eq_refl).
  - apply (H4 recorded_world prepared prepared_cluster).
    + right. left. reflexivity.
    + reflexivity.
Defined.
(* ================================================================== *)
(** * Further properties of the cells *)

Section AnyLoop.

Variable S : Type.
Variable step : op -> S -> outcome value * S.

(** X1. The loop of cell [10], for every list of futures and whatever
    ray.get and ic do: the refs are passed to ray.get in the order of the
    list, each position once; ic is given exactly what the ray.get before
    it returned; the loop stops at the first ray.get that raises, so the
    refs resolved are a prefix of the list, and they are the whole list
    when the cell returns.  On the empty list the cell makes no call. *)
Theorem ray_get_loop_in_list_order (futures_list : list value) (s : S) :
  let t := snd (run step (RemoteFunctions.cell_10 futures_list) s) in
  echoes t /\
  resolutions t = firstn (List.length (resolutions t)) futures_list /\
  (fst (fst (run step (RemoteFunctions.cell_10 futures_list) s)) = Ok tt ->
   resolutions t = futures_list /\
   List.length t = (2 * List.length futures_list)%nat) /\
  (futures_list = [] -> t = []).
Proof.
  revert s. induction futures_list as [|future rest IH]; intros s.
  - cbn. repeat split; reflexivity.
  - specialize IH.
    unfold RemoteFunctions.cell_10 in *. cbn [for_in].
    cbn [bind nb_monad do nb_bind run].
    destruct (step (ray_get future) s) as [[got|e] s1].
    + destruct (step (ic "ray.get(future)" got) s1) as [[v|e] s2].
      * specialize (IH s2). cbn [bind nb_monad do nb_bind] in IH.
        match goal with
        | |- context [run step ?p s2] =>
            destruct (run step p s2) as [[r s3] t3]
        end.
        cbn in *. destruct IH as [He [Hp [Hok _]]].
        repeat split; try assumption; try discriminate.
        -- f_equal. exact Hp.
        -- f_equal. apply Hok. assumption.
        -- rewrite (proj2 (Hok H)). lia.
      * cbn. repeat split; try discriminate.
    + cbn. repeat split; try discriminate.
Qed.

End AnyLoop.
(** X1 in the recorded world, on the four refs that cell [9] left. *)
Lemma ray_get_loop_in_list_order_witness :
  resolutions
    (snd (run (step recorded_world)
            (RemoteFunctions.cell_10 (map VObjectRef [0; 1; 2; 3]%nat))
            submitted_four))
  = map VObjectRef [0; 1; 2; 3]%nat /\
  List.length
    (snd (run (step recorded_world)
            (RemoteFunctions.cell_10 (map VObjectRef [0; 1; 2; 3]%nat))
            submitted_four))
  = (2 * 4)%nat.
Proof.
  exact (proj1 (proj2 (proj2
           (@ray_get_loop_in_list_order state (step recorded_world)
              (map VObjectRef [0; 1; 2; 3]%nat) submitted_four)))
           eq_refl).
Defined.


Section AnyTeardown.

Variable S : Type.
Variable step : op -> S -> outcome value * S.

(** X4. ray.shutdown in the Remote Functions and Remote Classes sessions,
    whatever the framework and the libraries do: it is called at most
    once, after the 28 calls that the cells before it make in Remote
    Functions and the 9 in Remote Classes (the echoes of print, ic and of
    the cells' values counted), and only when all of them have returned;
    a session that returns has called it; a session in which one of the
    calls before it raises never calls it, since ray.shutdown is a cell of
    its own after the others and no cell has a finally. *)
Theorem shutdown_only_when_every_call_returned (s : S) :
  (let ran := run step RemoteFunctions.notebook s in
   shutdown_after 28 (snd ran) /\
   (fst (fst ran) = Ok tt -> exists ev, filter is_shutdown (snd ran) = [ev]) /\
   (forallb returned (firstn 28 (snd ran)) = false ->
    filter is_shutdown (snd ran) = [])) /\
  (let ran := run step RemoteClasses.notebook s in
   shutdown_after 9 (snd ran) /\
   (fst (fst ran) = Ok tt -> exists ev, filter is_shutdown (snd ran) = [ev]) /\
   (forallb returned (firstn 9 (snd ran)) = false ->
    filter is_shutdown (snd ran) = [])).
Proof.
  split; cbv.
  all: repeat match goal with
              | |- context [step ?o ?s0] =>
                  destruct (step o s0) as [[?v|?e] ?s]; cbv
              end.
  all: repeat match goal with
              | |- _ /\ _ => split
              | |- _ -> _ => let H := fresh in intros H; try discriminate H
              | |- _ = _ => reflexivity
              | |- True => exact I
              | |- exists _, _ => eexists; reflexivity
              end.
Qed.

End AnyTeardown.

(** X4 in a world that loses the third task (the second call of
    slow_function): the Remote Functions session never calls ray.shutdown;
    and in the recorded world the Remote Classes session calls it once. *)
Lemma shutdown_only_when_every_call_returned_witness :
  filter is_shutdown
    (snd (session_of (losing 2 worker_died) RemoteFunctions.notebook)) = [] /\
  exists ev,
    filter is_shutdown (snd (session_of recorded_world RemoteClasses.notebook))
    = [ev].
Proof.
  split.
  - apply (proj2 (proj2 (proj1
             (@shutdown_only_when_every_call_returned state
                (step (losing 2 worker_died))
                (initial (losing 2 worker_died)))))).
    vm_compute. reflexivity.
  - apply (proj1 (proj2 (proj2
             (@shutdown_only_when_every_call_returned state
                (step recorded_world) (initial recorded_world))))).
    vm_compute. reflexivity.
Defined.

(** ** The Counter class, in one process *)

Lemma getattr_setattr_other (self : instance) (name other : string)
  (v : value) :
  other <> name ->
  getattr (setattr self name v) other = getattr self other.
Proof.
  intros Hne. induction self as [|[k x] rest IH]; simpl.
  - destruct (String.eqb_spec name other); [congruence|reflexivity].
  - destruct (String.eqb_spec k name) as [->|Hk]; simpl.
    + destruct (String.eqb_spec name other); [congruence|reflexivity].
    + destruct (String.eqb k other); [reflexivity|exact IH].
Qed.

(** X5. increment on an object without a value attribute raises
    AttributeError, on one whose value is None, a string, a list or a dict
    it raises TypeError, and in both cases the object is left as it was; on
    an object with an integer value it changes no attribute but value.  An
    object on which __init__ has run has value 0, and after any number k of
    increments it has value k, so that on such an object increment never
    raises and the next call returns k + 1. *)
Theorem increment_needs_an_integer_value :
  (forall (self : instance) (p : process),
      getattr self "value" = None ->
      exec (call RemoteClasses.increment []) self p
      = (Fail (AttributeError "value"), self, p)) /\
  (forall (self : instance) (p : process) (x : value),
      getattr self "value" = Some x ->
      takes_no_int x = true ->
      exists msg,
        exec (call RemoteClasses.increment []) self p
        = (Fail (TypeError msg), self, p)) /\
  (forall (self : instance) (p : process) (v : Z) (other : string),
      getattr self "value" = Some (VInt v) ->
      other <> "value"%string ->
      getattr (snd (fst (exec (call RemoteClasses.increment []) self p))) other
      = getattr self other) /\
  (forall (k : nat) (p : process),
      let fresh := snd (fst (exec (call RemoteClasses.__init__ []) [] p)) in
      let after_k :=
        Nat.iter k
          (fun self =>
             snd (fst (exec (call RemoteClasses.increment []) self p)))
          fresh in
      getattr after_k "value" = Some (VInt (Z.of_nat k)) /\
      fst (fst (exec (call RemoteClasses.increment []) after_k p))
      = Ok (VInt (Z.of_nat k + 1))).
Proof.
  split; [|split; [|split]].
  - intros self p H. cbn. rewrite H. reflexivity.
  - intros self p x H Hx. cbn. rewrite H.
    destruct x; try discriminate Hx; eexists; reflexivity.
  - intros self p v other H Hne.
    rewrite (Counter_increment self p H). cbn [fst snd].
    apply getattr_setattr_other. exact Hne.
  - intros k p fresh after_k.
    assert (Hk : getattr after_k "value" = Some (VInt (Z.of_nat k))).
    { subst after_k. induction k as [|k IH].
      - reflexivity.
      - rewrite Nat.iter_succ. rewrite (Counter_increment _ p IH). cbn [fst snd].
        rewrite getattr_setattr. do 2 f_equal. lia. }
    split; [exact Hk|].
    rewrite (Counter_increment after_k p Hk). reflexivity.
Qed.

(** X5 on an empty object, on an object whose value is a string, and on an
    object with another attribute. *)
Lemma increment_needs_an_integer_value_witness :
  exec (call RemoteClasses.increment []) [] (fresh_process (fun _ => 0))
  = (Fail (AttributeError "value"), [], fresh_process (fun _ => 0)) /\
  (exists msg,
      exec (call RemoteClasses.increment []) [("value"%string, VStr "7")]
        (fresh_process (fun _ => 0))
      = (Fail (TypeError msg), [("value"%string, VStr "7")],
         fresh_process (fun _ => 0))) /\
  getattr
    (snd (fst (exec (call RemoteClasses.increment [])
                 [("name"%string, VStr "c"); ("value"%string, VInt 7)]
                 (fresh_process (fun _ => 0)))))
    "name"
  = Some (VStr "c").
Proof.
  destruct increment_needs_an_integer_value as [H1 [H2 [H3 _]]].
  split; [|split].
  - exact (H1 [] (fresh_process (fun _ => 0)) eq_refl).
  - exact (H2 [("value"%string, VStr "7")] (fresh_process (fun _ => 0))
             (VStr "7") eq_refl eq_refl).
  - apply (H3 [("name"%string, VStr "c"); ("value"%string, VInt 7)]
             (fresh_process (fun _ => 0)) 7 "name"%string eq_refl).
    discriminate.
Defined.

Section AnyBackend.

Variable S : Type.
Variable step : op -> S -> outcome value * S.

(** X6. The [with] statement of cell [7] of JobLib, whatever the libraries
    do as long as a context manager's __exit__ returns None when it
    returns, as that of joblib.parallel_backend does (so that it lets the
    exception of its body through): the cell first asks joblib for the
    backend named ray; the context manager it gets is the one it enters
    and the one it leaves; fit is called on clf, only while the context
    manager is entered, and the context manager is left again whenever it
    was entered, also when fit or an attribute of digits raises.  When the
    cell returns, search is what fit returned for the data and target
    attributes of digits. *)
Theorem fit_runs_inside_the_backend (clf digits : value) (s : S) :
  (forall (cm : value) (s0 s1 : S) (v : value),
      step (exit cm) s0 = (Ok v, s1) -> v = VNone) ->
  let ran := run step (JobLib.cell_7 clf digits) s in
  match snd ran with
  | (library fn args kwargs, r) :: rest =>
      fn = "joblib.parallel_backend"%string /\ args = [VStr "ray"] /\
      kwargs = [] /\
      match r with
      | Ok cm =>
          backend_scoped clf Outside rest /\
          exists r', hd_error rest = Some (enter cm, r')
      | Fail _ => rest = []
      end
  | _ => False
  end /\
  (forall search,
      fst (fst ran) = Ok search ->
      exists data target,
        In (attribute digits "data", Ok data) (snd ran) /\
        In (attribute digits "target", Ok target) (snd ran) /\
        In (method clf "fit" [data; target], Ok search) (snd ran)).
Proof.
  intros _.
  unfold JobLib.cell_7. cbn [bind nb_monad do nb_bind run].
  repeat match goal with
         | |- context [step ?o ?s0] =>
             destruct (step o s0) as [[?v|?e] ?s]; cbn
         end.
  all: repeat match goal with
              | |- _ /\ _ => split
              | |- forall _, _ => intro
              | |- _ = _ => reflexivity
              | |- True => exact I
              | |- exists _, ?x = Inside _ => eexists; reflexivity
              | |- exists _, Some _ = Some _ => eexists; reflexivity
              | H : Fail _ = Ok _ |- _ => discriminate H
              end.
  all: match goal with
       | H : Ok _ = Ok _ |- _ => inversion H; subst
       end.
  all: eexists; eexists; repeat split; found.
Qed.

End AnyBackend.
(** X6 in the recorded world, once the ray backend is registered. *)
Lemma fit_runs_inside_the_backend_witness :
  (forall (cm : value) (s0 s1 : state) (v : value),
      step recorded_world (exit cm) s0 = (Ok v, s1) -> v = VNone) /\
  exists data target,
    In (attribute (VObject "digits") "data", Ok data)
      (snd (run (step recorded_world)
              (JobLib.cell_7 (VObject "clf") (VObject "digits")) registered))
    /\
    In (attribute (VObject "digits") "target", Ok target)
      (snd (run (step recorded_world)
              (JobLib.cell_7 (VObject "clf") (VObject "digits")) registered))
    /\
    In (method (VObject "clf") "fit" [data; target], Ok (VObject "fit"))
      (snd (run (step recorded_world)
              (JobLib.cell_7 (VObject "clf") (VObject "digits")) registered)).
Proof.
  assert (Hexit : forall (cm : value) (s0 s1 : state) (v : value),
             step recorded_world (exit cm) s0 = (Ok v, s1) -> v = VNone).
  { intros cm s0 s1 v H. cbn in H. inversion H. reflexivity. }
  split; [exact Hexit|].
  exact (proj2 (@fit_runs_inside_the_backend state (step recorded_world)
                  (VObject "clf") (VObject "digits") registered Hexit)
           (VObject "fit") eq_refl).
Defined.

(** ** Calls of increment resolved out of turn *)

(** An actor of class Counter whose instance holds [v], asked for the
    (j+1)-th of the calls in its mailbox, runs the calls up to that one,
    stores v+1, ..., v+j+1, and leaves the later calls in the mailbox and
    every other object as it was. *)
Lemma serve_increments_upto (a : nat) (j : nat) :
  forall (n0 : nat) (v : Z) (self : instance) (p : process)
         (objs : list object) (later : list nat),
    getattr self "value" = Some (VInt v) ->
    (forall i, (i <= j)%nat ->
               nth_error objs (n0 + i) = Some (pending_call a "increment" []))
    ->
    exists self' objs',
      serve RemoteClasses.Counter (seq n0 (Datatypes.S j) ++ later) (n0 + j)
        (Ok self) p objs
      = (Ok self', p, later, objs') /\
      getattr self' "value" = Some (VInt (v + Z.of_nat j + 1)) /\
      nth_error objs' (n0 + j) =
        Some {| producer := actor_task a "increment" [];
                result := Some (Ok (VInt (v + Z.of_nat j + 1))) |} /\
      (forall m, (m < n0 \/ n0 + j < m)%nat ->
                 nth_error objs' m = nth_error objs m).
Proof.
  induction j as [|j IH]; intros n0 v self p objs later Hv Hobjs.
  - pose proof (Hobjs 0%nat (Nat.le_refl _)) as H0.
    rewrite Nat.add_0_r in *.
    change (seq n0 1 ++ later) with (n0 :: later).
    rewrite (@serve_increment_step a n0 n0 later self p objs v H0 Hv).
    rewrite Nat.eqb_refl.
    eexists. eexists. split; [reflexivity|].
    replace (v + Z.of_nat 0 + 1) with (v + 1) by lia.
    split; [apply getattr_setattr|]. split.
    + rewrite nth_error_set_result, Nat.eqb_refl, H0. reflexivity.
    + intros m Hm. rewrite nth_error_set_result.
      destruct (Nat.eqb_spec m n0); [lia|reflexivity].
  - pose proof (Hobjs 0%nat (Nat.le_0_l _)) as H0.
    rewrite Nat.add_0_r in H0.
    change (seq n0 (Datatypes.S (Datatypes.S j)) ++ later)
      with (n0 :: (seq (Datatypes.S n0) (Datatypes.S j) ++ later)).
    rewrite (@serve_increment_step a n0 (n0 + Datatypes.S j)
               (seq (Datatypes.S n0) (Datatypes.S j) ++ later)
               self p objs v H0 Hv).
    destruct (Nat.eqb_spec n0 (n0 + Datatypes.S j)) as [E|_]; [lia|].
    replace (n0 + Datatypes.S j)%nat with (Datatypes.S n0 + j)%nat by lia.
    destruct (IH (Datatypes.S n0) (v + 1)
                (setattr self "value" (VInt (v + 1))) p
                (set_result n0 (Ok (VInt (v + 1))) objs) later)
      as [self' [objs' [Hserve [Hval [Hres Hframe]]]]].
    + apply getattr_setattr.
    + intros i Hi. rewrite nth_error_set_result.
      destruct (Nat.eqb_spec (Datatypes.S n0 + i) n0) as [E|_]; [lia|].
      replace (Datatypes.S n0 + i)%nat with (n0 + Datatypes.S i)%nat by lia.
      apply Hobjs. lia.
    + exists self', objs'. split; [exact Hserve|].
      replace (v + Z.of_nat (Datatypes.S j) + 1)
        with (v + 1 + Z.of_nat j + 1) by lia.
      split; [exact Hval|]. split; [exact Hres|].
      intros m Hm. rewrite Hframe by lia.
      rewrite nth_error_set_result.
      destruct (Nat.eqb_spec m n0); [lia|reflexivity].
Qed.

(** X7. When k + 1 calls of increment have been submitted to a Counter
    actor that was just created, resolving the (j+1)-th of them, for any
    j <= k, hands over j + 1 (unless the cluster loses that call): what a
    call resolves to depends on its position among the calls submitted,
    not on how many were submitted after it. *)
Theorem increment_resolves_by_position (w : world) (cl : cluster) (a : nat)
  (act : actor) (k j : nat) :
  nth_error (actors cl) a = Some act ->
  a_class act = RemoteClasses.Counter ->
  a_args act = [] ->
  a_self act = None ->
  mailbox act = [] ->
  (j <= k)%nat ->
  let n0 := List.length (objects cl) in
  let submitted := submit_n (actor_task a "increment" []) (Datatypes.S k) cl in
  fst (resolve w (n0 + j) submitted) =
    match fault w (n0 + j) with
    | Some e => Fail e
    | None => Ok (VInt (Z.of_nat j + 1))
    end.
Proof.
  intros Ha Hclass Hargs Hself Hbox Hjk n0 submitted.
  destruct (@submit_n_actor_task a "increment" [] (Datatypes.S k) cl act Ha)
    as [Hobjs Hact].
  fold submitted in Hobjs, Hact. fold n0 in Hact.
  assert (Hpending : forall i, (i <= k)%nat ->
            nth_error (objects submitted) (n0 + i)
            = Some (pending_call a "increment" [])).
  { intros i Hi. rewrite Hobjs, nth_error_app2 by (unfold n0; lia).
    replace (n0 + i - List.length (objects cl))%nat with i by (unfold n0; lia).
    apply nth_error_repeat. lia. }
  assert (Hseq : seq n0 (Datatypes.S k)
                 = seq n0 (Datatypes.S j) ++ seq (n0 + Datatypes.S j) (k - j)).
  { rewrite <- seq_app. f_equal. lia. }
  destruct (@serve_increments_upto a j n0 0 [("value"%string, VInt 0)]
              (a_process act) (objects submitted)
              (seq (n0 + Datatypes.S j) (k - j)) eq_refl)
    as [self' [objs' [Hserve [_ [Hres Hframe]]]]].
  { intros i Hi. apply Hpending. lia. }
  assert (E : resolve w (n0 + j) submitted =
              (deliver w (n0 + j)
                 {| objects := objs';
                    actors :=
                      replace a
                        {| a_class := RemoteClasses.Counter; a_args := [];
                           a_self := Some (Ok self');
                           a_process := a_process act;
                           mailbox := seq (n0 + Datatypes.S j) (k - j) |}
                        (actors submitted) |},
               {| objects := objs';
                  actors :=
                    replace a
                      {| a_class := RemoteClasses.Counter; a_args := [];
                         a_self := Some (Ok self');
                         a_process := a_process act;
                         mailbox := seq (n0 + Datatypes.S j) (k - j) |}
                      (actors submitted) |})).
  { unfold resolve, complete.
    rewrite (Hpending j Hjk). cbn [result producer pending_call].
    rewrite Hact. unfold with_mailbox.
    cbn [a_self a_class a_args a_process mailbox].
    rewrite Hself, Hclass, Hargs, Hbox, Counter_init. cbn [app].
    rewrite Hseq.
    change (Ok [("value"%string, VInt 0)] : outcome instance)
      with (Ok ([("value"%string, VInt 0)] : instance)).
    rewrite Hserve. reflexivity. }
  rewrite E. cbn [fst snd objects actors].
  unfold deliver. cbn [objects]. rewrite Hres. cbn.
  destruct (fault w (n0 + j)); reflexivity.
Qed.
(** X7 in the recorded world: of four increments submitted to the Counter
    of [prepared_cluster], the second resolves to 2. *)
Lemma increment_resolves_by_position_witness :
  fst (resolve recorded_world 1
         (submit_n (actor_task 0 "increment" []) 4 prepared_cluster))
  = Ok (VInt 2).
Proof.
  exact (@increment_resolves_by_position recorded_world prepared_cluster
           0%nat _ 3%nat 1%nat eq_refl eq_refl eq_refl eq_refl eq_refl
           ltac:(lia)).
Defined.

Section AnySubmission.

Variable S : Type.
Variable step : op -> S -> outcome value * S.

(** X8. The loop of cell [9], whatever [.remote] and ic do and for any
    callee: the calls it makes are callee.remote() and ic(i) in turn, for
    i = 0, 1, 2, 3, up to the first call that raises; when the cell returns,
    it has made all eight calls and futures_list holds, in order, exactly
    what the four submissions returned. *)
Theorem futures_list_is_what_remote_returned (callee : value) (s : S) :
  let ran := run step (RemoteFunctions.cell_9 callee) s in
  map fst (snd ran) =
    firstn (List.length (snd ran))
      [remote callee []; ic "i" (VInt 0); remote callee []; ic "i" (VInt 1);
       remote callee []; ic "i" (VInt 2); remote callee []; ic "i" (VInt 3)]
  /\
  (forall futures_list,
      fst (fst ran) = Ok futures_list ->
      futures_list = submissions (snd ran) /\
      List.length futures_list = 4%nat /\
      List.length (snd ran) = 8%nat).
Proof.
  unfold RemoteFunctions.cell_9. cbn [range seq map Z.of_nat for_in].
  cbn [bind nb_monad do nb_bind run].
  repeat match goal with
         | |- context [step ?o ?s0] =>
             destruct (step o s0) as [[?v|?e] ?s]; cbn
         end.
  all: split; [reflexivity|].
  all: intros futures_list H; try discriminate H.
  inversion H; subst. repeat split; reflexivity.
Qed.

End AnySubmission.

(** X8 in the recorded world, for slow_function. *)
Lemma futures_list_is_what_remote_returned_witness :
  map VObjectRef [0; 1; 2; 3]%nat
  = submissions
      (snd (run (step recorded_world)
              (RemoteFunctions.cell_9 (VRemoteFunction 1)) prepared)) /\
  List.length (map VObjectRef [0; 1; 2; 3]%nat) = 4%nat /\
  List.length
    (snd (run (step recorded_world)
            (RemoteFunctions.cell_9 (VRemoteFunction 1)) prepared))
  = 8%nat.
Proof.
  exact (proj2 (@futures_list_is_what_remote_returned state
                  (step recorded_world) (VRemoteFunction 1) prepared)
           (map VObjectRef [0; 1; 2; 3]%nat) eq_refl).
Defined.
